(** * Server Resource Monitor: the dashboard client and the collector contract

    The repository's executable source is the React client
    [frontend/src/App.js] (and an earlier revision of the same file).  The
    client keeps four pieces of state ([gpuData], [loading], [error],
    [lastUpdated]), polls [/api/gpu-status] every 5000 ms and renders the
    fetched JSON payload.

    The embedding below follows the JavaScript as written:
    - JSON payloads are dynamically typed [value]s; objects are finite maps
      from property names to values;
    - numbers are IEEE-754 binary64 ([PrimFloat.float]), so [/] and [*] are
      the operations the program executes, with their NaN and Infinity
      results;
    - a [TypeError] raised while evaluating [App] is the [Throw] outcome of
      the [result] monad;
    - every expression of the JSX is evaluated, in the order of the text
      (the key of an element is turned into a string last, when the
      element is created); the rendered view keeps what becomes text or a
      progress value, the colours computed for the sx/styling props are
      evaluated and not kept.

    Three conversions of the language, the numeric-literal reader used by
    [ToNumber] on strings, the integer reader of [parseInt] and the
    shortest-digits printer used by [ToString] on finite non-integral or
    very large numbers, are taken as parameters ([Intrinsics]). *)

From Stdlib Require Import ZArith Floats Uint63 String Ascii List Lia.
From stdpp Require Import base option list gmap strings pretty.

Set Warnings "-register-all,-inexact-float".
Local Open Scope string_scope.

(* ================================================================== *)
(** * JavaScript numbers *)
(* ================================================================== *)

Module Num.

(** [isFinite(x)]: neither NaN nor an infinity. *)
Definition isFinite (x : float) : bool :=
  negb (PrimFloat.is_nan x || PrimFloat.is_infinity x).

(** Array and string lengths as numbers. *)
Definition of_nat (n : nat) : float :=
  PrimFloat.of_uint63 (Uint63.of_Z (Z.of_nat n)).

(** [a > b] on numbers (false as soon as one side is NaN). *)
Definition gt (a b : float) : bool := PrimFloat.ltb b a.

(** [Math.min(a, b)] for a second argument that is not NaN or a zero
    (the program only calls it with the literal 100). *)
Definition min (a b : float) : float :=
  if PrimFloat.is_nan a then a
  else if PrimFloat.ltb a b then a else b.

(** The real value of a finite float is [m * 2^e]; [scaled m e f] is the
    integer [n] for which [n / 10^f] is closest to it, the larger one on
    a tie (step 10.a of Number.prototype.toFixed). *)
Definition scaled (m : positive) (e : Z) (f : nat) : Z :=
  let p := (Z.pos m * 10 ^ Z.of_nat f)%Z in
  if (0 <=? e)%Z then (p * 2 ^ e)%Z
  else ((2 * p + 2 ^ (- e)) / 2 ^ (1 - e))%Z.

(** [m * 2^e >= 10^21]. *)
Definition huge (m : positive) (e : Z) : bool :=
  if (0 <=? e)%Z then (10 ^ 21 <=? Z.pos m * 2 ^ e)%Z
  else (10 ^ 21 * 2 ^ (- e) <=? Z.pos m)%Z.

Fixpoint zeros (k : nat) : string :=
  match k with O => "" | S k' => String "0" (zeros k') end.

(** Steps 10.b-10.d of toFixed: the digits of [n], left-padded with
    zeros to [f + 1] characters, with a point before the last [f]. *)
Definition digits (n : Z) (f : nat) : string :=
  let m := pretty (Z.to_N n) in
  match f with
  | O => m
  | S _ =>
      let m' := zeros (S f - String.length m) +:+ m in
      let k := String.length m' in
      substring 0 (k - f) m' +:+ "." +:+ substring (k - f) f m'
  end.

End Num.

(* ================================================================== *)
(** * Values, faults and the language's coercions *)
(* ================================================================== *)

Inductive value :=
| VUndefined
| VNull
| VBool (b : bool)
| VNum (x : float)
| VStr (s : string)
| VArr (xs : list value)
| VObj (o : gmap string value).

Inductive exn := TypeError.

Inductive result (A : Type) :=
| Ok (a : A)
| Throw (e : exn).
Arguments Ok {A} a.
Arguments Throw {A} e.

Definition bind {A B} (m : result A) (k : A -> result B) : result B :=
  match m with Ok a => k a | Throw e => Throw e end.

Notation "'do' x <- m ; k" := (bind m (fun x => k))
  (at level 10, x name, m at level 100, k at level 200).

Fixpoint traverse {A B} (f : A -> result B) (l : list A) : result (list B) :=
  match l with
  | [] => Ok []
  | a :: l' => do b <- f a; do bs <- traverse f l'; Ok (b :: bs)
  end.

Record Intrinsics := {
  (** StringToNumber of ECMA-262: the numeric value of a string. *)
  StringToNumber : string -> float;
  (** Number::toString of a finite, non-zero number. *)
  ShortestDecimal : float -> string;
  (** parseInt of ECMA-262 on a string, with no radix given. *)
  ParseInt : string -> float
}.

Definition nullish (v : value) : bool :=
  match v with VUndefined | VNull => true | _ => false end.

(** ToBoolean. *)
Definition truthy (v : value) : bool :=
  match v with
  | VUndefined | VNull => false
  | VBool b => b
  | VNum x => negb (PrimFloat.is_zero x || PrimFloat.is_nan x)
  | VStr s => negb (String.eqb s "")
  | VArr _ | VObj _ => true
  end.

(** [a || b]. *)
Definition js_or (a b : value) : value := if truthy a then a else b.

(** [v.k] for the property names the client reads (data fields and
    [length]; none of them lives on a built-in prototype).  A string is
    its sequence of code units. *)
Definition get (v : value) (k : string) : result value :=
  match v with
  | VUndefined | VNull => Throw TypeError
  | VObj o => Ok (default VUndefined (o !! k))
  | VArr xs => Ok (if String.eqb k "length" then VNum (Num.of_nat (length xs)) else VUndefined)
  | VStr s => Ok (if String.eqb k "length" then VNum (Num.of_nat (String.length s)) else VUndefined)
  | VBool _ | VNum _ => Ok VUndefined
  end.

(** [v?.k]. *)
Definition get_opt (v : value) (k : string) : result value :=
  if nullish v then Ok VUndefined else get v k.

Fixpoint join (sep : string) (l : list string) : string :=
  match l with
  | [] => ""
  | [s] => s
  | s :: l' => s +:+ sep +:+ join sep l'
  end.

Fixpoint sequence {A} (l : list (result A)) : result (list A) :=
  match l with
  | [] => Ok []
  | m :: l' => do a <- m; do r <- sequence l'; Ok (a :: r)
  end.

Section Coercions.

Variable js : Intrinsics.

(** Number::toString. *)
Definition NumberToString (x : float) : string :=
  match Prim2SF x with
  | S754_nan => "NaN"
  | S754_infinity false => "Infinity"
  | S754_infinity true => "-Infinity"
  | S754_zero _ => "0"
  | S754_finite _ _ _ => ShortestDecimal js x
  end.

(** Number.prototype.toFixed(f), for 0 <= f <= 100. *)
Definition toFixed (x : float) (f : nat) : string :=
  match Prim2SF x with
  | S754_finite s m e =>
      if Num.huge m e then NumberToString x
      else (if s then "-" else "") +:+ Num.digits (Num.scaled m e f) f
  | S754_zero _ => Num.digits 0 f
  | _ => NumberToString x
  end.

(** ToString.  A JSON object has only data properties: one that owns a
    [toString] key has no callable conversion left and the coercion
    throws; an array prints its elements separated by commas, null and
    undefined elements as the empty string. *)
Fixpoint ToString (v : value) : result string :=
  match v with
  | VUndefined => Ok "undefined"
  | VNull => Ok "null"
  | VBool b => Ok (if b then "true" else "false")
  | VNum x => Ok (NumberToString x)
  | VStr s => Ok s
  | VArr xs =>
      do parts <- sequence
        (map (fun e => if nullish e then Ok "" else ToString e) xs);
      Ok (join "," parts)
  | VObj o =>
      match o !! "toString" with
      | Some _ => Throw TypeError
      | None => Ok "[object Object]"
      end
  end.

(** ToNumber. *)
Definition ToNumber (v : value) : result float :=
  match v with
  | VUndefined => Ok nan
  | VNull => Ok 0%float
  | VBool b => Ok (if b then 1%float else 0%float)
  | VNum x => Ok x
  | VStr s => Ok (StringToNumber js s)
  | VArr _ => do s <- ToString v; Ok (StringToNumber js s)
  | VObj _ => do s <- ToString v; Ok nan
  end.

(** [a / b], [a * b] and [a > c] for a numeric literal [c]. *)
Definition js_div (a b : value) : result float :=
  do x <- ToNumber a; do y <- ToNumber b; Ok (x / y)%float.

Definition js_mul (a b : value) : result float :=
  do x <- ToNumber a; do y <- ToNumber b; Ok (x * y)%float.

Definition js_gt (a : value) (c : float) : result bool :=
  do x <- ToNumber a; Ok (Num.gt x c).

(** [v.toFixed(f)]: only numbers have the method. *)
Definition call_toFixed (v : value) (f : nat) : result value :=
  match v with
  | VNum x => Ok (VStr (toFixed x f))
  | _ => Throw TypeError
  end.

(** [v?.toFixed(f)]. *)
Definition call_toFixed_opt (v : value) (f : nat) : result value :=
  if nullish v then Ok VUndefined else call_toFixed v f.

(** [parseInt(v)]: the argument is first turned into a string. *)
Definition parseInt (v : value) : result float :=
  do s <- ToString v; Ok (ParseInt js s).

(** [key={v}]: when the element is created React keeps the key as the
    string ['' + v], unless [v] is undefined. *)
Definition element_key (v : value) : result (option string) :=
  match v with
  | VUndefined => Ok None
  | _ => do s <- ToString v; Ok (Some s)
  end.

End Coercions.

(** [v.map(f)]: only arrays have the method. *)
Definition array_map {B} (v : value) (f : value -> result B) : result (list B) :=
  match v with
  | VArr xs => traverse f xs
  | _ => Throw TypeError
  end.

(** [s.split('/').pop()]: what follows the last slash. *)
Fixpoint after_last_slash (s acc : string) : string :=
  match s with
  | EmptyString => acc
  | String c r =>
      if Ascii.eqb c "/" then after_last_slash r ""
      else after_last_slash r (acc +:+ String c "")
  end.

Definition split_pop (v : value) : result value :=
  match v with
  | VStr s => Ok (VStr (after_last_slash s ""))
  | _ => Throw TypeError
  end.

(** [v !== 'N/A']. *)
Definition differs_from (v : value) (lit : string) : bool :=
  match v with
  | VStr s => negb (String.eqb s lit)
  | _ => true
  end.

(* ================================================================== *)
(** * The client: state, data fetching, polling (App.js) *)
(* ================================================================== *)

Record State := {
  gpuData : value;
  loading : bool;
  error : value;        (* null or the message *)
  lastUpdated : Z       (* a Date, as milliseconds since the epoch *)
}.

Definition setGpuData (v : value) (s : State) : State :=
  {| gpuData := v; loading := loading s; error := error s;
     lastUpdated := lastUpdated s |}.
Definition setLoading (b : bool) (s : State) : State :=
  {| gpuData := gpuData s; loading := b; error := error s;
     lastUpdated := lastUpdated s |}.
Definition setError (e : value) (s : State) : State :=
  {| gpuData := gpuData s; loading := loading s; error := e;
     lastUpdated := lastUpdated s |}.
Definition setLastUpdated (t : Z) (s : State) : State :=
  {| gpuData := gpuData s; loading := loading s; error := error s;
     lastUpdated := t |}.

(** The [useState] initialisers; [now] is the [new Date()] of the mount. *)
Definition initial_state (now : Z) : State :=
  {| gpuData := VObj (<["gpus" := VArr []]>
                     (<["active_users" := VArr []]>
                     (<["user_resources" := VArr []]>
                     (<["system_resources" := VObj ∅]> ∅))));
     loading := true;
     error := VNull;
     lastUpdated := now |}.

(** [process.env.REACT_APP_API_URL || 'http://localhost:8000']. *)
Definition API_URL (REACT_APP_API_URL : option string) : string :=
  match REACT_APP_API_URL with
  | Some s => if String.eqb s "" then "http://localhost:8000" else s
  | None => "http://localhost:8000"
  end.

(** How [await axios.get(...)] ends: with a response carrying [data], or
    with a rejection (network failure or a non-2xx status). *)
Inductive Response :=
| Fulfilled (data : value)
| Rejected.

Definition fetch_error_message (env : option string) : string :=
  "Failed to connect to the server at " +:+ API_URL env +:+
  "/api/gpu-status. Please ensure the server is running and the SSH connection is properly configured. Demo mode has been disabled.".

(** [fetchData]: the try block, the catch block, then finally. *)
Definition fetchData (env : option string) (r : Response) (now : Z)
    (s : State) : State :=
  let s' :=
    match r with
    | Fulfilled data => setError VNull (setLastUpdated now (setGpuData data s))
    | Rejected => setError (VStr (fetch_error_message env)) s
    end in
  setLoading false s'.

(** [handleRefresh], up to the point where the request is in flight. *)
Definition handleRefresh (s : State) : State := setLoading true s.

(** A run of the client: the requests issued by the mount effect and its
    timer, each with the way it ended and the instant it did. *)
Fixpoint polls (env : option string) (rs : list (Response * Z))
    (s : State) : State :=
  match rs with
  | [] => s
  | (r, now) :: rest => polls env rest (fetchData env r now s)
  end.

(** The mount effect: one immediate [fetchData()] and
    [setInterval(fetchData, 5000)]. *)
Inductive Effect :=
| CallFetchData
| SetInterval (delay_ms : Z).

Global Instance Effect_eq_dec : EqDecision Effect.
Proof. solve_decision. Defined.

Definition poll_interval_ms : Z := 5000.

Definition on_mount : list Effect :=
  [CallFetchData; SetInterval poll_interval_ms].

Definition interval_of (effects : list Effect) : option Z :=
  head (omap (fun e => match e with SetInterval d => Some d | _ => None end)
             effects).

(** The instant of the [k]-th call of [fetchData] issued by the mount
    effect mounted at [t0] (call 0 is the immediate one, the others are
    the timer's). *)
Definition poll_time (effects : list Effect) (t0 : Z) (k : nat) : option Z :=
  match k with
  | O => if decide (CallFetchData ∈ effects) then Some t0 else None
  | S _ => d ← interval_of effects; Some (t0 + Z.of_nat k * d)%Z
  end.

(* ================================================================== *)
(** * The client: progress colours *)
(* ================================================================== *)

Definition green : string := "#4caf50".
Definition orange : string := "#ff9800".
Definition red : string := "#f44336".

(** The body of [getProgressColor] on a number. *)
Definition progress_color (x : float) : string :=
  if (x <? 50)%float then green
  else if (x <? 80)%float then orange
  else red.

(** [getProgressColor(value)]: [value < 50] and [value < 80] compare the
    numeric value of the argument. *)
Definition getProgressColor (js : Intrinsics) (v : value) : result string :=
  do x <- ToNumber js v; Ok (progress_color x).

(* ================================================================== *)
(** * The client: what [App] renders *)
(* ================================================================== *)

(** The rendered tree, without its styling: the colours are computed by
    the render functions below and not stored.  A field of type [value]
    is a child or a prop handed to React as the expression produced it. *)

Record CpuCard := {
  cpu_progress : value;          (* CircularProgress value *)
  cpu_percent : value;           (* the text before "%" *)
  cpu_cores : value              (* the text before " cores" *)
}.

Record MemoryCard := {
  memory_progress : value;
  memory_percent : value;
  memory_used : value;
  memory_total : value
}.

Record DiskCard := {
  disk_progress : value;
  disk_percent : value;
  disk_used : value;
  disk_total : value
}.

Record SystemSection := {
  cpu_card : CpuCard;
  memory_card : MemoryCard;
  disk_card : DiskCard
}.

Record StorageSummary := {
  summary_used : value;
  summary_total : value;
  summary_progress : value;
  summary_available : value
}.

Record PartitionCard := {
  partition_title : value;
  partition_used : value;
  partition_total : value;
  partition_progress : value;
  partition_available : value
}.

(** [{a && a.length > 0 && (<Paper>...</Paper>)}]: either the falsy
    operand itself, or the section. *)
Inductive StorageSection :=
| StorageHidden (operand : value)
| StorageShown (summary : StorageSummary) (partitions : list PartitionCard).

Record GpuCard := {
  gpu_id : value;
  gpu_name : value;
  gpu_memory_used : value;
  gpu_memory_total : value;
  gpu_progress : float;          (* LinearProgress value *)
  gpu_temperature : value;
  gpu_power_usage : value;
  gpu_user : value
}.

Record SessionLine := {
  session_terminal : value;
  session_origin : string
}.

Record UserRow := {
  row_username : value;
  row_cpu_progress : float;
  row_cpu_usage : value;
  row_memory_progress : float;
  row_memory_usage : value;
  row_gpu_memory : string;
  row_storage : string;
  row_sessions : list SessionLine
}.

Inductive UsersCard :=
| NoActiveUsers
| UsersTable (rows : list UserRow).

Inductive View :=
| Spinner
| ErrorScreen (message : value)
| Dashboard (last_updated : Z) (system : SystemSection)
    (storage : StorageSection) (gpus : list GpuCard) (users : UsersCard).

Section Render.

Variable js : Intrinsics.

(** [system_resources.k?.field]. *)
Definition read (sr : value) (k field : string) : result value :=
  do o <- get sr k; get_opt o field.

(** [getProgressColor(system_resources.cpu?.usage_percent || 0)], and the
    same for the memory card, the disk card and the storage summary. *)
Definition cpu_color (sr : value) : result string :=
  do p <- read sr "cpu" "usage_percent";
  getProgressColor js (js_or p (VNum 0)).

Definition memory_color (sr : value) : result string :=
  do p <- read sr "memory" "usage_percent";
  getProgressColor js (js_or p (VNum 0)).

Definition disk_color (sr : value) : result string :=
  do p <- read sr "disk" "usage_percent";
  getProgressColor js (js_or p (VNum 0)).

Definition summary_color (sr : value) : result string :=
  do p <- read sr "storage_summary" "usage_percent";
  getProgressColor js (js_or p (VNum 0)).

Definition render_cpu (sr : value) : result CpuCard :=
  do p <- read sr "cpu" "usage_percent";
  do colour <- cpu_color sr;
  do t <- call_toFixed_opt js p 1;
  do c <- read sr "cpu" "cores";
  Ok {| cpu_progress := js_or p (VNum 0);
        cpu_percent := js_or t (VNum 0);
        cpu_cores := js_or c (VStr "N/A") |}.

Definition render_memory (sr : value) : result MemoryCard :=
  do p <- read sr "memory" "usage_percent";
  do colour <- memory_color sr;
  do t <- call_toFixed_opt js p 1;
  do u <- read sr "memory" "used";
  do tot <- read sr "memory" "total";
  Ok {| memory_progress := js_or p (VNum 0);
        memory_percent := js_or t (VNum 0);
        memory_used := js_or u (VNum 0);
        memory_total := js_or tot (VNum 0) |}.

Definition render_disk (sr : value) : result DiskCard :=
  do p <- read sr "disk" "usage_percent";
  do colour <- disk_color sr;
  do u <- read sr "disk" "used";
  do tot <- read sr "disk" "total";
  Ok {| disk_progress := js_or p (VNum 0);
        disk_percent := js_or p (VNum 0);
        disk_used := js_or u (VStr "N/A");
        disk_total := js_or tot (VStr "N/A") |}.

Definition render_system (sr : value) : result SystemSection :=
  do c <- render_cpu sr;
  do m <- render_memory sr;
  do d <- render_disk sr;
  Ok {| cpu_card := c; memory_card := m; disk_card := d |}.

Definition render_summary (sr : value) : result StorageSummary :=
  do u <- read sr "storage_summary" "used";
  do tot <- read sr "storage_summary" "total";
  do p <- read sr "storage_summary" "usage_percent";
  do colour <- summary_color sr;
  do a <- read sr "storage_summary" "available";
  Ok {| summary_used := js_or u (VStr "0G");
        summary_total := js_or tot (VStr "0G");
        summary_progress := js_or p (VNum 0);
        summary_available := js_or a (VStr "0G") |}.

(** [getProgressColor(disk.usage_percent)]. *)
Definition partition_color (disk : value) : result string :=
  do p <- get disk "usage_percent"; getProgressColor js p.

Definition render_partition (disk : value) : result PartitionCard :=
  do mp <- get disk "mount_point";
  do title <- split_pop mp;
  do u <- get disk "used";
  do tot <- get disk "total";
  do p <- get disk "usage_percent";
  do colour <- partition_color disk;
  do a <- get disk "available";
  Ok {| partition_title := title; partition_used := u;
        partition_total := tot; partition_progress := p;
        partition_available := a |}.

Definition render_storage (sr : value) : result StorageSection :=
  do sd <- get sr "storage_disks";
  if truthy sd then
    do len <- get sd "length";
    do some <- js_gt js len 0;
    if some then
      do summary <- render_summary sr;
      do parts <- array_map sd render_partition;
      Ok (StorageShown summary parts)
    else Ok (StorageHidden (VBool false))
  else Ok (StorageHidden sd).

(** [(gpu.memory_used / gpu.memory_total) * 100]. *)
Definition gpu_usage_percent (gpu : value) : result float :=
  do used <- get gpu "memory_used";
  do total <- get gpu "memory_total";
  do q <- js_div js used total;
  Ok (q * 100)%float.

(** [getProgressColor((gpu.memory_used / gpu.memory_total) * 100)]. *)
Definition gpu_color (gpu : value) : result string :=
  do pct <- gpu_usage_percent gpu; getProgressColor js (VNum pct).

(** [getProgressColor(parseInt(gpu.temperature) * 1.1)]. *)
Definition temperature_color (gpu : value) : result string :=
  do temp <- get gpu "temperature";
  do n <- parseInt js temp;
  getProgressColor js (VNum (n * 1.1)%float).

Definition render_gpu (gpu : value) : result GpuCard :=
  do id <- get gpu "id";
  do name <- get gpu "name";
  do used <- get gpu "memory_used";
  do total <- get gpu "memory_total";
  do pct <- gpu_usage_percent gpu;
  do colour <- gpu_color gpu;
  do temp_colour <- temperature_color gpu;
  do temp <- get gpu "temperature";
  do power <- get gpu "power_usage";
  do user <- get gpu "user";
  do key <- element_key js id;
  Ok {| gpu_id := id; gpu_name := name;
        gpu_memory_used := used; gpu_memory_total := total;
        gpu_progress := pct;
        gpu_temperature := temp; gpu_power_usage := power;
        gpu_user := js_or user (VStr "No user") |}.

(** The GPU Memory cell of the users table. *)
Definition gpu_memory_cell (user : value) : result string :=
  do g <- get user "gpu_memory_usage";
  do positive <- js_gt js g 0;
  if positive then
    do q <- js_div js g (VNum 1024);
    Ok (toFixed js q 1 +:+ "G")
  else Ok "None".

(** The Storage Usage cell of the users table. *)
Definition storage_cell (user : value) : result string :=
  do u <- get user "storage_usage";
  do positive <- js_gt js u 0;
  if positive then
    do above_one <- js_gt js u 1;
    if above_one then
      do t <- call_toFixed js u 1;
      do str <- ToString js t;
      Ok (str +:+ "G")
    else
      do p <- js_mul js u (VNum 1024);
      Ok (toFixed js p 0 +:+ "MB")
  else Ok "N/A".

Definition render_session (session : value) : result SessionLine :=
  do term <- get session "terminal";
  do from <- get session "from";
  do origin <-
    (if differs_from from "N/A"
     then do str <- ToString js from; Ok ("(" +:+ str +:+ ")")
     else Ok "");
  Ok {| session_terminal := term; session_origin := origin |}.

(** [getProgressColor(user.cpu_usage)] and
    [getProgressColor(user.memory_usage)]. *)
Definition user_cpu_color (user : value) : result string :=
  do c <- get user "cpu_usage"; getProgressColor js c.

Definition user_memory_color (user : value) : result string :=
  do m <- get user "memory_usage"; getProgressColor js m.

Definition render_user (user : value) : result UserRow :=
  do name <- get user "username";
  do cpu <- get user "cpu_usage";
  do cpu_n <- ToNumber js cpu;
  do cpu_colour <- user_cpu_color user;
  do mem <- get user "memory_usage";
  do mem_n <- ToNumber js mem;
  do mem_colour <- user_memory_color user;
  do g <- gpu_memory_cell user;
  do st <- storage_cell user;
  do sessions <- get user "sessions";
  do lines <- array_map sessions render_session;
  Ok {| row_username := name;
        row_cpu_progress := Num.min cpu_n 100;
        row_cpu_usage := cpu;
        row_memory_progress := Num.min mem_n 100;
        row_memory_usage := mem;
        row_gpu_memory := g;
        row_storage := st;
        row_sessions := lines |}.

Definition render_users (user_resources : value) : result UsersCard :=
  if truthy user_resources then
    do len <- get user_resources "length";
    do some <- js_gt js len 0;
    if some then
      do rows <- array_map user_resources render_user;
      Ok (UsersTable rows)
    else Ok NoActiveUsers
  else Ok NoActiveUsers.

(** The function component. *)
Definition App (s : State) : result View :=
  if loading s then Ok Spinner
  else if truthy (error s) then Ok (ErrorScreen (error s))
  else
    do gpus <- get (gpuData s) "gpus";
    do user_resources <- get (gpuData s) "user_resources";
    do system_resources <- get (gpuData s) "system_resources";
    do system <- render_system system_resources;
    do storage <- render_storage system_resources;
    do cards <- array_map gpus render_gpu;
    do users <- render_users user_resources;
    Ok (Dashboard (lastUpdated s) system storage cards users).

End Render.

(* ================================================================== *)
(** * The earlier revision of the client *)
(* ================================================================== *)

Module Legacy.

Definition fetch_error_message : string :=
  "Failed to fetch GPU data. Please check if the backend server is running.".

Definition fetchData (r : Response) (now : Z) (s : State) : State :=
  let s' :=
    match r with
    | Fulfilled data => setError VNull (setLastUpdated now (setGpuData data s))
    | Rejected => setError (VStr fetch_error_message) s
    end in
  setLoading false s'.

Definition poll_interval_ms : Z := 5000.

Definition on_mount : list Effect :=
  [CallFetchData; SetInterval poll_interval_ms].

(** [(gpu.memory_used / gpu.memory_total) * 100], as in the current
    revision. *)
Definition gpu_usage_percent (js : Intrinsics) (gpu : value) : result float :=
  do used <- get gpu "memory_used";
  do total <- get gpu "memory_total";
  do q <- js_div js used total;
  Ok (q * 100)%float.

End Legacy.

(* ================================================================== *)
(** * The collector behind [/api/gpu-status] *)
(* ================================================================== *)

(** The server side of the repository ([main.py]) is not among the source
    files; the client above is its only caller.  Everything in this module
    is written from the specification's sections 3, 4 and 6. *)

Module Collector.

(** Modelled from the spec: the metric families of section 4.2 (the
    collector's source is missing). *)
Inductive Metric := GPU | CPU | Memory | Disk | DiskPartitions | Users.

Global Instance Metric_eq_dec : EqDecision Metric.
Proof. solve_decision. Defined.

Definition all_metrics : list Metric :=
  [GPU; CPU; Memory; Disk; DiskPartitions; Users].

(** Modelled from the spec: the failure taxonomy of sections 4.1 and 7
    (the collector's source is missing). *)
Inductive Failure := ConnectionError | CommandTimeout | NonZeroExit | ParseError.

Global Instance Failure_eq_dec : EqDecision Failure.
Proof. solve_decision. Defined.

Record FailureDescriptor := {
  failed_metric : Metric;
  cause : Failure
}.

Global Instance FailureDescriptor_eq_dec : EqDecision FailureDescriptor.
Proof. solve_decision. Defined.

(** Modelled from the spec: the records of section 3 (the collector's
    source is missing). *)
Record CommandResult := {
  command : Metric;
  output : string;
  exit_status : Z;
  exec_error : option Failure
}.

Record GpuRecord := {
  id : Z;
  name : string;
  memory_used : Z;
  memory_total : Z;
  temperature : option Z;
  power_usage : option Z;
  user : option string
}.

Record Usage := {
  used : float;
  total : float
}.

Record CpuInfo := {
  cpu_usage_percent : float;
  core_count : Z
}.

Record Partition := {
  mount_point : string;
  part_used : float;
  part_total : float;
  part_available : float
}.

Record SystemResources := {
  cpu : option CpuInfo;
  memory : option Usage;
  disk : option Usage;
  storage_disks : option (list Partition)
}.

Record UserSession := {
  terminal : string;
  origin_host : string
}.

Record UserResourceRecord := {
  username : string;
  cpu_usage : float;
  memory_usage : float;
  gpu_memory_usage : float;
  storage_usage : float;
  sessions : list UserSession
}.

Record Snapshot := {
  gpus : list GpuRecord;
  users : list UserResourceRecord;
  system : SystemResources;
  captured_at : Z;
  failures : list FailureDescriptor
}.

(** Modelled from the spec: "usage_percent is derived as used / total *
    100 with total defended against being zero (emit 0%)", the rule of
    the memory and disk parsers (their source is missing). *)
Definition usage_percent (u : Usage) : float :=
  if PrimFloat.is_zero (total u) then 0%float
  else (used u / total u * 100)%float.

(** Modelled from the spec: the storage summary is the sum over the
    reported partitions (the parsers' source is missing). *)
Definition storage_summary (s : SystemResources) : option Usage :=
  parts ← storage_disks s;
  Some {| used := foldr (fun p acc => (part_used p + acc)%float) 0%float parts;
          total := foldr (fun p acc => (part_total p + acc)%float) 0%float parts |}.

(** Modelled from the spec: one pure parser per command family, failing
    closed (the parsers' source is missing, so they are parameters). *)
Record Parsers := {
  parse_gpu : string -> option (list GpuRecord);
  parse_cpu : string -> option CpuInfo;
  parse_memory : string -> option Usage;
  parse_disk : string -> option Usage;
  parse_partitions : string -> option (list Partition);
  parse_users : string -> option (list UserResourceRecord)
}.

(** Modelled from the spec: the remote host as the Command Runner sees
    it (the runner's source is missing): whether a session can be
    established, and what each command returns over it. *)
Record Remote := {
  reachable : bool;
  exec : Metric -> CommandResult
}.

(** Modelled from the spec: a command result routed through its parser
    (section 4.3; the aggregator's source is missing). *)
Definition measure {A} (parse : string -> option A) (r : CommandResult)
    : Failure + A :=
  match exec_error r with
  | Some e => inl e
  | None =>
      if (exit_status r =? 0)%Z then
        match parse (output r) with
        | Some a => inr a
        | None => inl ParseError
        end
      else inl NonZeroExit
  end.

Definition failure_of {A} (m : Metric) (r : Failure + A)
    : list FailureDescriptor :=
  match r with
  | inl e => [{| failed_metric := m; cause := e |}]
  | inr _ => []
  end.

Definition field_of {A} (r : Failure + A) : option A :=
  match r with inl _ => None | inr a => Some a end.

(** Modelled from the spec: [collect() -> Snapshot] of section 4.3 (the
    aggregator's source is missing).  A failed metric leaves its field
    absent and adds one failure descriptor; an unreachable session
    short-circuits to a snapshot with every metric failed. *)
Definition collect (P : Parsers) (remote : Remote) (now : Z) : Snapshot :=
  if reachable remote then
    let g := measure (parse_gpu P) (exec remote GPU) in
    let c := measure (parse_cpu P) (exec remote CPU) in
    let m := measure (parse_memory P) (exec remote Memory) in
    let d := measure (parse_disk P) (exec remote Disk) in
    let p := measure (parse_partitions P) (exec remote DiskPartitions) in
    let u := measure (parse_users P) (exec remote Users) in
    {| gpus := default [] (field_of g);
       users := default [] (field_of u);
       system := {| cpu := field_of c; memory := field_of m;
                    disk := field_of d; storage_disks := field_of p |};
       captured_at := now;
       failures := failure_of GPU g ++ failure_of CPU c ++
                   failure_of Memory m ++ failure_of Disk d ++
                   failure_of DiskPartitions p ++ failure_of Users u |}
  else
    {| gpus := []; users := [];
       system := {| cpu := None; memory := None; disk := None;
                    storage_disks := None |};
       captured_at := now;
       failures := map (fun m => {| failed_metric := m;
                                    cause := ConnectionError |})
                       all_metrics |}.


(** Modelled from the spec: a collection failed at the session level
    when every metric failed with the connection error (sections 4.3
    and 7). *)
Definition session_failure (s : Snapshot) : bool :=
  forallb (fun m => bool_decide
             ({| failed_metric := m; cause := ConnectionError |}
                ∈ failures s))
          all_metrics.

End Collector.

Module RefreshCache.

Import Collector.

Definition Caller := nat.

(** Modelled from the spec: the cache's state machine [Idle ->
    Refreshing -> Idle] of section 4.4 (the cache's source is missing).
    [Refreshing] carries the callers blocked on the collection in
    flight; [collections] counts the Aggregator.collect() invocations
    issued so far. *)
Inductive Phase :=
| Idle
| Refreshing (waiting : list Caller).

Record Cache := {
  published : option Snapshot;
  last_error : option Failure;
  phase : Phase;
  collections : nat
}.

(** Modelled from the spec: [{snapshot, isStale, lastError}] of section
    6 (the boundary's source is missing). *)
Record Reply := {
  snapshot : option Snapshot;
  isStale : bool;
  lastError : option Failure
}.

Definition empty : Cache :=
  {| published := None; last_error := None; phase := Idle;
     collections := 0 |}.

(** The published snapshot, when its age is within [maxAge]. *)
Definition fresh (maxAge now : Z) (c : Cache) : option Snapshot :=
  s ← published c;
  if (now - captured_at s <=? maxAge)%Z then Some s else None.

Definition start (who : Caller) (c : Cache) : Cache :=
  {| published := published c; last_error := last_error c;
     phase := Refreshing [who]; collections := S (collections c) |}.

Definition await (who : Caller) (ws : list Caller) (c : Cache) : Cache :=
  {| published := published c; last_error := last_error c;
     phase := Refreshing (ws ++ [who]); collections := collections c |}.

(** Modelled from the spec: a [getCurrent(maxAge)] call arriving at
    [now] (section 4.4 and 5; source missing).  It is answered at once
    from a fresh cache, starts the one collection when the cache is
    idle and too old, and blocks on the collection in flight
    otherwise. *)
Definition arrive (who : Caller) (maxAge now : Z) (c : Cache)
    : Cache * option Reply :=
  match phase c with
  | Refreshing ws => (await who ws c, None)
  | Idle =>
      match fresh maxAge now c with
      | Some s => (c, Some {| snapshot := Some s; isStale := false;
                              lastError := last_error c |})
      | None => (start who c, None)
      end
  end.

(** Modelled from the spec: a [forceRefresh()] call (source missing). *)
Definition force (who : Caller) (c : Cache) : Cache :=
  match phase c with
  | Refreshing ws => await who ws c
  | Idle => start who c
  end.

(** Modelled from the spec: what the end of a collection does to the
    cache and what it answers (section 4.4 and 7; source missing).  A
    session-level failure keeps the published snapshot and marks the
    answer stale; anything else is published wholesale. *)
Definition settle (snap : Snapshot) (c : Cache) : Cache * Reply :=
  if session_failure snap then
    ({| published := published c; last_error := Some ConnectionError;
        phase := Idle; collections := collections c |},
     {| snapshot := published c; isStale := true;
        lastError := Some ConnectionError |})
  else
    ({| published := Some snap; last_error := None;
        phase := Idle; collections := collections c |},
     {| snapshot := Some snap; isStale := false; lastError := None |}).

(** The collection in flight returns: every blocked caller is handed
    the same answer. *)
Definition complete (snap : Snapshot) (c : Cache)
    : Cache * list (Caller * Reply) :=
  match phase c with
  | Idle => (c, [])
  | Refreshing ws =>
      let '(c', r) := settle snap c in (c', map (fun w => (w, r)) ws)
  end.

Definition callers (calls : list (Caller * Z * Z)) : list Caller :=
  map (fun call => fst (fst call)) calls.

(** Calls arriving one after the other, none of them answered at once. *)
Fixpoint arrive_all (calls : list (Caller * Z * Z)) (c : Cache) : Cache :=
  match calls with
  | [] => c
  | (who, maxAge, now) :: rest =>
      arrive_all rest (fst (arrive who maxAge now c))
  end.

(** Modelled from the spec: [getCurrent(maxAge)] as one synchronous
    call on an idle cache, [collect] being the aggregator (source
    missing). *)
Definition getCurrent (collect : Z -> Snapshot) (maxAge now : Z)
    (c : Cache) : Cache * Reply :=
  match arrive 0 maxAge now c with
  | (c', Some r) => (c', r)
  | (c', None) => settle (collect now) c'
  end.

End RefreshCache.

(* ================================================================== *)
(** * Sample data *)
(* ================================================================== *)

(** An object literal. *)
Definition obj (fields : list (string * value)) : value :=
  VObj (list_to_map fields).

(** An instance of the conversions for closed examples.  The payloads
    below hold numbers and non-numeric strings only; none of the texts
    and progress values rendered for them depends on the instance. *)
Definition sample_intrinsics : Intrinsics :=
  {| StringToNumber := fun _ => nan; ShortestDecimal := fun _ => "";
     ParseInt := fun _ => nan |}.

Definition tesla_t4 : value :=
  obj [("id", VNum 0); ("name", VStr "Tesla T4");
       ("memory_used", VNum 1024); ("memory_total", VNum 16384);
       ("temperature", VNum 42); ("power_usage", VNum 70);
       ("user", VStr "alice")].

Definition alice : value :=
  obj [("username", VStr "alice"); ("cpu_usage", VNum 12.5);
       ("memory_usage", VNum 3); ("gpu_memory_usage", VNum 1024);
       ("storage_usage", VNum 0.5);
       ("sessions", VArr [obj [("terminal", VStr "pts/0");
                               ("from", VStr "10.0.0.1")]])].

Definition sample_payload : value :=
  obj [("gpus", VArr [tesla_t4]);
       ("user_resources", VArr [alice]);
       ("system_resources",
        obj [("cpu", obj [("usage_percent", VNum 12.5); ("cores", VNum 8)]);
             ("disk", obj [("usage_percent", VNum 40);
                           ("used", VStr "50G"); ("total", VStr "125G")])])].

Definition sample_system_resources : gmap string value :=
  list_to_map
    [("cpu", obj [("usage_percent", VNum 12.5); ("cores", VNum 8)]);
     ("disk", obj [("usage_percent", VNum 40);
                   ("used", VStr "50G"); ("total", VStr "125G")])].

Definition sample_data : gmap string value :=
  list_to_map
    [("gpus", VArr [tesla_t4]);
     ("user_resources", VArr [alice]);
     ("system_resources", VObj sample_system_resources)].

(** What [App] shows for [sample_payload]. *)
Definition sample_system : SystemSection :=
  {| cpu_card := {| cpu_progress := VNum 12.5; cpu_percent := VStr "12.5";
                    cpu_cores := VNum 8 |};
     memory_card := {| memory_progress := VNum 0; memory_percent := VNum 0;
                       memory_used := VNum 0; memory_total := VNum 0 |};
     disk_card := {| disk_progress := VNum 40; disk_percent := VNum 40;
                     disk_used := VStr "50G"; disk_total := VStr "125G" |} |}.

Definition sample_gpu_card : GpuCard :=
  {| gpu_id := VNum 0; gpu_name := VStr "Tesla T4";
     gpu_memory_used := VNum 1024; gpu_memory_total := VNum 16384;
     gpu_progress := 6.25;
     gpu_temperature := VNum 42; gpu_power_usage := VNum 70;
     gpu_user := VStr "alice" |}.

Definition sample_user_row : UserRow :=
  {| row_username := VStr "alice";
     row_cpu_progress := 12.5; row_cpu_usage := VNum 12.5;
     row_memory_progress := 3; row_memory_usage := VNum 3;
     row_gpu_memory := "1.0G"; row_storage := "512MB";
     row_sessions := [{| session_terminal := VStr "pts/0";
                         session_origin := "(10.0.0.1)" |}] |}.

(** A first successful poll at t = 1000 ms after a mount at t = 0. *)
Definition after_first_poll : State :=
  fetchData None (Fulfilled sample_payload) 1000 (initial_state 0).

(** A collector whose parsers accept any non-empty text, and a host on
    which the GPU query exits with status 9 while every other command
    succeeds. *)
Definition sample_usage : Collector.Usage :=
  {| Collector.used := 8192; Collector.total := 16384 |}.

Definition sample_user : Collector.UserResourceRecord :=
  {| Collector.username := "alice"; Collector.cpu_usage := 12.5;
     Collector.memory_usage := 3; Collector.gpu_memory_usage := 1024;
     Collector.storage_usage := 0.5;
     Collector.sessions := [{| Collector.terminal := "pts/0";
                               Collector.origin_host := "10.0.0.1" |}] |}.

Definition non_empty {A} (a : A) (text : string) : option A :=
  if String.eqb text "" then None else Some a.

Definition sample_parsers : Collector.Parsers :=
  {| Collector.parse_gpu := non_empty [];
     Collector.parse_cpu :=
       non_empty {| Collector.cpu_usage_percent := 12.5;
                    Collector.core_count := 8 |};
     Collector.parse_memory := non_empty sample_usage;
     Collector.parse_disk := non_empty sample_usage;
     Collector.parse_partitions := non_empty [];
     Collector.parse_users := non_empty [sample_user] |}.

Definition gpu_down : Collector.Remote :=
  {| Collector.reachable := true;
     Collector.exec := fun m =>
       {| Collector.command := m;
          Collector.output :=
            if decide (m = Collector.GPU) then "" else "ok";
          Collector.exit_status :=
            if decide (m = Collector.GPU) then 9 else 0;
          Collector.exec_error := None |} |}.

Definition host_down : Collector.Remote :=
  {| Collector.reachable := false;
     Collector.exec := Collector.exec gpu_down |}.

(** A cache holding a snapshot captured at t = 0. *)
Definition sample_snapshot : Collector.Snapshot :=
  Collector.collect sample_parsers gpu_down 0.

Definition warm_cache : RefreshCache.Cache :=
  {| RefreshCache.published := Some sample_snapshot;
     RefreshCache.last_error := None;
     RefreshCache.phase := RefreshCache.Idle;
     RefreshCache.collections := 1 |}.

(* ================================================================== *)
(** * Placeholders *)
(* ================================================================== *)

(** What the cards show when their metric is missing. *)
Definition cpu_fallback : CpuCard :=
  {| cpu_progress := VNum 0; cpu_percent := VNum 0;
     cpu_cores := VStr "N/A" |}.

Definition memory_fallback : MemoryCard :=
  {| memory_progress := VNum 0; memory_percent := VNum 0;
     memory_used := VNum 0; memory_total := VNum 0 |}.

Definition disk_fallback : DiskCard :=
  {| disk_progress := VNum 0; disk_percent := VNum 0;
     disk_used := VStr "N/A"; disk_total := VStr "N/A" |}.

Definition summary_fallback : StorageSummary :=
  {| summary_used := VStr "0G"; summary_total := VStr "0G";
     summary_progress := VNum 0; summary_available := VStr "0G" |}.

Definition system_fallback : SystemSection :=
  {| cpu_card := cpu_fallback; memory_card := memory_fallback;
     disk_card := disk_fallback |}.

Definition with_cpu (c : CpuCard) (v : SystemSection) : SystemSection :=
  {| cpu_card := c; memory_card := memory_card v; disk_card := disk_card v |}.

Definition with_memory (m : MemoryCard) (v : SystemSection) : SystemSection :=
  {| cpu_card := cpu_card v; memory_card := m; disk_card := disk_card v |}.

Definition with_disk (d : DiskCard) (v : SystemSection) : SystemSection :=
  {| cpu_card := cpu_card v; memory_card := memory_card v; disk_card := d |}.

(** A metric is missing from [system_resources] when its property is
    absent or null, or is an object without any of the fields the card
    reads. *)
Definition lacks_all (v : value) (fields : list string) : bool :=
  match v with
  | VUndefined | VNull => true
  | VObj c => forallb (fun f => nullish (default VUndefined (c !! f))) fields
  | _ => false
  end.

Definition missing (sr : gmap string value) (k : string)
    (fields : list string) : bool :=
  lacks_all (default VUndefined (sr !! k)) fields.

(** A measurement that is absent, or a numeric zero. *)
Definition absent_or_zero (u : gmap string value) (k : string) : bool :=
  match u !! k with
  | None => true
  | Some (VNum x) => PrimFloat.is_zero x
  | Some _ => false
  end.

(** The stored snapshot with [system_resources] replaced. *)
Definition with_system_resources (sr : gmap string value)
    (d : gmap string value) (s : State) : State :=
  setGpuData (VObj (<["system_resources" := VObj sr]> d)) s.

Definition is_error_screen (v : View) : bool :=
  match v with ErrorScreen _ => true | _ => false end.

Definition is_dashboard (v : View) : bool :=
  match v with Dashboard _ _ _ _ _ => true | _ => false end.

(* ================================================================== *)
(** * The client: what happens over time *)
(* ================================================================== *)

(** What reaches the component after the mount: the end of a request
    (whether issued by the timer, the mount or a refresh), or a click on
    one of the refresh buttons. *)
Inductive Event :=
| Response_arrives (r : Response) (now : Z)
| Refresh_clicked.

Definition step (env : option string) (ev : Event) (s : State) : State :=
  match ev with
  | Response_arrives r now => fetchData env r now s
  | Refresh_clicked => handleRefresh s
  end.

Fixpoint run (env : option string) (evs : list Event) (s : State) : State :=
  match evs with
  | [] => s
  | ev :: rest => run env rest (step env ev s)
  end.

(** The payload and instant of the most recent fulfilled request. *)
Fixpoint last_success (evs : list Event) : option (value * Z) :=
  match evs with
  | [] => None
  | Response_arrives (Fulfilled d) now :: rest =>
      match last_success rest with
      | Some later => Some later
      | None => Some (d, now)
      end
  | _ :: rest => last_success rest
  end.

(* ================================================================== *)
(** * The earlier revision: what it renders *)
(* ================================================================== *)

Module LegacyApp.

(** [{ gpus: [], active_users: [], system_resources: {} }]. *)
Definition initial_state (now : Z) : State :=
  {| gpuData := VObj (<["gpus" := VArr []]>
                     (<["active_users" := VArr []]>
                     (<["system_resources" := VObj ∅]> ∅)));
     loading := true;
     error := VNull;
     lastUpdated := now |}.

Inductive ActiveUsersCard :=
| NoActiveUsers
| ActiveUsersList (items : list value).

Inductive View :=
| Spinner
| ErrorScreen (message : value)
| Dashboard (last_updated : Z) (system : SystemSection)
    (gpus : list GpuCard) (users : ActiveUsersCard).

(** [v[0]]. *)
Definition first_element (v : value) : result value :=
  match v with
  | VUndefined | VNull => Throw TypeError
  | VArr xs => Ok (default VUndefined (head xs))
  | VStr (String c _) => Ok (VStr (String c ""))
  | VStr EmptyString => Ok VUndefined
  | VObj o => Ok (default VUndefined (o !! "0"))
  | VBool _ | VNum _ => Ok VUndefined
  end.

Section Render.

Variable js : Intrinsics.

(** [active_users.length > 0 && active_users[0] !== '' ? list : text]. *)
Definition render_active_users (active_users : value)
    : result ActiveUsersCard :=
  do len <- get active_users "length";
  do some <- js_gt js len 0;
  if some then
    do first <- first_element active_users;
    if differs_from first "" then
      do items <- array_map active_users Ok;
      Ok (ActiveUsersList items)
    else Ok NoActiveUsers
  else Ok NoActiveUsers.

(** The function component of the earlier revision.  Its system cards
    and GPU cards evaluate the same expressions as the current ones (the
    memory figures get a constant "MB" suffix). *)
Definition App (s : State) : result View :=
  if loading s then Ok Spinner
  else if truthy (error s) then Ok (ErrorScreen (error s))
  else
    do gpus <- get (gpuData s) "gpus";
    do active_users <- get (gpuData s) "active_users";
    do system_resources <- get (gpuData s) "system_resources";
    do system <- render_system js system_resources;
    do cards <- array_map gpus (render_gpu js);
    do users <- render_active_users active_users;
    Ok (Dashboard (lastUpdated s) system cards users).

End Render.

End LegacyApp.

(* ================================================================== *)
(** * Shapes of payload fields *)
(* ================================================================== *)

Definition is_number (v : value) : bool :=
  match v with VNum _ => true | _ => false end.

(** Undefined, null, booleans, numbers and strings. *)
Definition primitive (v : value) : bool :=
  match v with VArr _ | VObj _ => false | _ => true end.

(** The shape of payload the cards are written for: objects whose
    numeric fields are primitives, whose percentages and storage figures
    are numbers when present, whose lists are arrays. *)
Definition field (o : gmap string value) (k : string) : value :=
  default VUndefined (o !! k).

Definition number_or_nullish (v : value) : bool :=
  is_number v || nullish v.

Definition well_formed_gpu (g : value) : bool :=
  match g with
  | VObj o => primitive (field o "id") &&
              primitive (field o "memory_used") &&
              primitive (field o "memory_total") &&
              primitive (field o "temperature")
  | _ => false
  end.

Definition well_formed_session (s : value) : bool :=
  match s with
  | VObj o => primitive (field o "from")
  | _ => false
  end.

Definition well_formed_user (u : value) : bool :=
  match u with
  | VObj o =>
      primitive (field o "cpu_usage") &&
      primitive (field o "memory_usage") &&
      primitive (field o "gpu_memory_usage") &&
      number_or_nullish (field o "storage_usage") &&
      match field o "sessions" with
      | VArr ss => forallb well_formed_session ss
      | _ => false
      end
  | _ => false
  end.

Definition well_formed_metric (sr : gmap string value) (k : string) : bool :=
  match field sr k with
  | VUndefined | VNull => true
  | VObj c => number_or_nullish (field c "usage_percent")
  | _ => false
  end.

(** An entry of [system_resources] whose [usage_percent], if it can be
    read at all, is a primitive. *)
Definition primitive_usage (sr : gmap string value) (k : string) : bool :=
  match field sr k with
  | VObj c => primitive (field c "usage_percent")
  | _ => true
  end.

Definition well_formed_partition (d : value) : bool :=
  match d with
  | VObj o =>
      match field o "mount_point" with VStr _ => true | _ => false end &&
      primitive (field o "usage_percent")
  | _ => false
  end.

Definition well_formed_payload (data : value) : bool :=
  match data with
  | VObj d =>
      match field d "gpus" with
      | VArr gs => forallb well_formed_gpu gs
      | _ => false
      end &&
      match field d "user_resources" with
      | VUndefined | VNull => true
      | VArr us => forallb well_formed_user us
      | _ => false
      end &&
      match field d "system_resources" with
      | VObj sr =>
          well_formed_metric sr "cpu" && well_formed_metric sr "memory" &&
          primitive_usage sr "disk" &&
          primitive_usage sr "storage_summary" &&
          match field sr "storage_disks" with
          | VUndefined | VNull => true
          | VArr ds => forallb well_formed_partition ds
          | _ => false
          end
      | _ => false
      end
  | _ => false
  end.

Fixpoint has_slash (s : string) : bool :=
  match s with
  | EmptyString => false
  | String c r => Ascii.eqb c "/" || has_slash r
  end.

(** An instance of the conversions that reads strings of decimal digits
    (a non-empty string of digits denoting a number below 2^53 has that
    number as its numeric value). *)
Fixpoint digits_value (s : string) (acc : Z) : option Z :=
  match s with
  | EmptyString => Some acc
  | String c r =>
      let n := nat_of_ascii c in
      if (48 <=? n)%nat && (n <=? 57)%nat
      then digits_value r (10 * acc + Z.of_nat (n - 48))
      else None
  end.

Definition digits_number (s : string) : float :=
  match s, digits_value s 0 with
  | String _ _, Some n => PrimFloat.of_uint63 (Uint63.of_Z n)
  | _, _ => nan
  end.

Definition digit_intrinsics : Intrinsics :=
  {| StringToNumber := digits_number;
     ShortestDecimal := fun _ => "";
     ParseInt := digits_number |}.

(** A payload with one GPU, no users and an empty [system_resources]. *)
Definition bare_data : gmap string value :=
  list_to_map [("gpus", VArr [tesla_t4]);
               ("user_resources", VArr []);
               ("system_resources", VObj ∅)].

(* ================================================================== *)
(** * Facts about binary64 comparisons and division *)
(* ================================================================== *)

Section FloatFacts.

Lemma zero_shape t :
  PrimFloat.is_zero t = true -> exists s, Prim2SF t = S754_zero s.
Proof.
  unfold PrimFloat.is_zero. rewrite FloatAxioms.eqb_spec.
  change (Prim2SF PrimFloat.zero) with (S754_zero false).
  destruct (Prim2SF t) as [s| s | | s m e]; cbn; try discriminate; eauto.
  all: destruct s; discriminate.
Qed.

Lemma nan_shape r : Prim2SF r = S754_nan -> PrimFloat.is_nan r = true.
Proof.
  intros H. unfold PrimFloat.is_nan.
  rewrite FloatAxioms.eqb_spec, H. reflexivity.
Qed.

Lemma infinity_shape r s :
  Prim2SF r = S754_infinity s -> PrimFloat.is_infinity r = true.
Proof.
  intros H. unfold PrimFloat.is_infinity.
  rewrite FloatAxioms.eqb_spec, FloatAxioms.abs_spec, H. reflexivity.
Qed.

(** Dividing by a zero and scaling by 100 never gives a finite number:
    the quotient is NaN for a zero or NaN numerator and an infinity
    otherwise. *)
Lemma percent_of_zero_total u t :
  PrimFloat.is_zero t = true -> Num.isFinite (u / t * 100) = false.
Proof.
  intros [s Hs]%zero_shape. unfold Num.isFinite.
  assert (Prim2SF (u / t * 100) = S754_nan \/
          exists s', Prim2SF (u / t * 100) = S754_infinity s') as [H|[s' H]].
  { rewrite FloatAxioms.mul_spec, FloatAxioms.div_spec, Hs.
    let c := eval vm_compute in (Prim2SF 100) in
      change (Prim2SF 100) with c.
    destruct (Prim2SF u) as [su| su | | su m e]; cbn; eauto. }
  - rewrite (nan_shape _ H). reflexivity.
  - rewrite (infinity_shape _ _ H), orb_true_r. reflexivity.
Qed.

Lemma SFcompare_flip a b :
  SFcompare b a = option_map CompOpp (SFcompare a b).
Proof.
  destruct a as [s| s | | s m e], b as [s'| s' | | s' m' e'];
    cbn; try reflexivity;
    repeat match goal with s : bool |- _ => destruct s end;
    cbn; try reflexivity.
  all: rewrite (Z.compare_antisym e e'); destruct (e ?= e')%Z;
    cbn; try reflexivity.
  all: pose proof (Pos.compare_cont_antisym m m' Eq) as A; cbn in A;
    rewrite <- A.
  all: destruct (Pos.compare_cont Eq m m'); reflexivity.
Qed.

(** [x <= y] excludes [x > y]. *)
Lemma le_not_gt x y : PrimFloat.leb x y = true -> Num.gt x y = false.
Proof.
  unfold Num.gt. rewrite FloatAxioms.leb_spec, FloatAxioms.ltb_spec.
  unfold SFleb, SFltb.
  rewrite (SFcompare_flip (Prim2SF x) (Prim2SF y)).
  destruct (SFcompare (Prim2SF x) (Prim2SF y)) as [[]|]; cbn; congruence.
Qed.

(** Neither zero is [> 0]. *)
Lemma zero_not_gt x : PrimFloat.is_zero x = true -> Num.gt x 0 = false.
Proof.
  intros [s Hs]%zero_shape. unfold Num.gt.
  rewrite FloatAxioms.ltb_spec, Hs. reflexivity.
Qed.

(** [x > 1] implies [x > 0]. *)
Lemma gt_one_gt_zero x : Num.gt x 1 = true -> Num.gt x 0 = true.
Proof.
  unfold Num.gt. rewrite !FloatAxioms.ltb_spec. unfold SFltb.
  let c := eval vm_compute in (Prim2SF 1) in change (Prim2SF 1) with c.
  let c := eval vm_compute in (Prim2SF 0) in change (Prim2SF 0) with c.
  destruct (Prim2SF x) as [s| s | | s m e]; cbn; try discriminate;
    destruct s; cbn; congruence.
Qed.

End FloatFacts.

(** [toFixed] on a few numbers: ties go up in magnitude, and the digits
    are those of the binary64 value, not of the decimal literal. *)
Example toFixed_examples :
  toFixed sample_intrinsics 12.5 1 = "12.5" /\
  toFixed sample_intrinsics 0.25 1 = "0.3" /\
  toFixed sample_intrinsics 2.5 0 = "3" /\
  toFixed sample_intrinsics 1.005 2 = "1.00" /\
  toFixed sample_intrinsics (-0.04) 1 = "-0.0" /\
  toFixed sample_intrinsics 0 1 = "0.0" /\
  toFixed sample_intrinsics 512 0 = "512" /\
  toFixed sample_intrinsics nan 1 = "NaN" /\
  toFixed sample_intrinsics infinity 1 = "Infinity".
Proof. repeat split; vm_compute; reflexivity. Qed.

Example App_shows_the_spinner_first :
  App sample_intrinsics (initial_state 0) = Ok Spinner.
Proof. reflexivity. Qed.

Example App_sample_dashboard :
  App sample_intrinsics after_first_poll
  = Ok (Dashboard 1000 sample_system (StorageHidden VUndefined)
          [sample_gpu_card] (UsersTable [sample_user_row])).
Proof. vm_compute. reflexivity. Qed.

(* ================================================================== *)
(** * Data fetching and polling *)
(* ================================================================== *)

Lemma failed_polls_frame (env : option string) (rs : list (Response * Z)) :
  forall s : State,
    Forall (fun p => fst p = Rejected) rs ->
    gpuData (polls env rs s) = gpuData s /\
    lastUpdated (polls env rs s) = lastUpdated s.
Proof.
  induction rs as [|[r now] rest IH]; intros s Hall.
  - split; reflexivity.
  - inversion Hall as [|? ? Hr Hrest]; subst. cbn in Hr. subst r.
    cbn [polls]. destruct (IH (fetchData env Rejected now s) Hrest) as [-> ->].
    split; reflexivity.
Qed.

(** C8.  When a fetch fails, [fetchData] leaves the stored snapshot and
    the last-updated timestamp exactly as they were: the error path sets
    only the error message and the loading flag.  This holds for the
    current client and for its earlier revision, and therefore over any
    run of failed polls. *)
Theorem failed_fetch_keeps_snapshot (env : option string) (now : Z) (s : State) :
  fetchData env Rejected now s
  = {| gpuData := gpuData s; loading := false;
       error := VStr (fetch_error_message env);
       lastUpdated := lastUpdated s |} /\
  Legacy.fetchData Rejected now s
  = {| gpuData := gpuData s; loading := false;
       error := VStr Legacy.fetch_error_message;
       lastUpdated := lastUpdated s |} /\
  gpuData (fetchData env Rejected now s) = gpuData s /\
  lastUpdated (fetchData env Rejected now s) = lastUpdated s /\
  gpuData (Legacy.fetchData Rejected now s) = gpuData s /\
  lastUpdated (Legacy.fetchData Rejected now s) = lastUpdated s /\
  (forall rs, Forall (fun p => fst p = Rejected) rs ->
     gpuData (polls env rs s) = gpuData s /\
     lastUpdated (polls env rs s) = lastUpdated s).
Proof.
  do 6 (split; [reflexivity|]). intros rs. apply failed_polls_frame.
Qed.

Lemma failed_fetch_keeps_snapshot_witness :
  Forall (fun p : Response * Z => fst p = Rejected)
    [(Rejected, 6000%Z); (Rejected, 11000%Z)] /\
  gpuData (polls None [(Rejected, 6000%Z); (Rejected, 11000%Z)]
             after_first_poll)
  = gpuData after_first_poll /\
  lastUpdated (polls None [(Rejected, 6000%Z); (Rejected, 11000%Z)]
                 after_first_poll)
  = 1000%Z.
Proof.
  assert (Forall (fun p : Response * Z => fst p = Rejected)
            [(Rejected, 6000%Z); (Rejected, 11000%Z)]) as H
    by (repeat constructor).
  split; [exact H|].
  exact (proj2 (proj2 (proj2 (proj2 (proj2 (proj2
           (failed_fetch_keeps_snapshot None 0 after_first_poll))))))
           _ H).
Defined.

Lemma interval_of_on_mount : interval_of on_mount = Some poll_interval_ms.
Proof. reflexivity. Qed.

(** C7.  The periodic driver's refresh interval is the constant 5000 ms,
    that is 5 seconds: the mount effect of both revisions registers
    [fetchData] with that delay, so after the immediate first call the
    k-th poll starts [k * 5000] ms after the mount and two consecutive
    polls are 5 seconds apart. *)
Theorem poll_cadence_is_five_seconds :
  poll_interval_ms = (5 * 1000)%Z /\
  interval_of on_mount = Some 5000%Z /\
  interval_of Legacy.on_mount = Some 5000%Z /\
  (forall t0, poll_time on_mount t0 0 = Some t0) /\
  (forall t0 k, poll_time on_mount t0 (S k) =
                Some (t0 + Z.of_nat (S k) * 5000)%Z) /\
  (forall t0 k, poll_time on_mount t0 (S (S k)) =
                (fun a => a + 5 * 1000)%Z <$> poll_time on_mount t0 (S k)).
Proof.
  repeat split; try reflexivity.
  intros t0 k.
  assert (forall n, poll_time on_mount t0 (S n) =
                    Some (t0 + Z.of_nat (S n) * 5000)%Z) as E
    by reflexivity.
  rewrite !E. cbn [fmap option_fmap option_map]. f_equal. lia.
Qed.

(* ================================================================== *)
(** * The GPU memory bar *)
(* ================================================================== *)

Section GpuBar.

Variable js : Intrinsics.

Lemma gpu_usage_percent_numbers (o : gmap string value) (u t : float) :
  o !! "memory_used" = Some (VNum u) ->
  o !! "memory_total" = Some (VNum t) ->
  gpu_usage_percent js (VObj o) = Ok (u / t * 100)%float.
Proof.
  intros Hu Ht. unfold gpu_usage_percent, get. rewrite Hu, Ht. reflexivity.
Qed.

(** The bar reads [memory_used] and [memory_total] and nothing else. *)
Lemma gpu_usage_percent_frame (o : gmap string value) k v :
  k <> "memory_used" -> k <> "memory_total" ->
  gpu_usage_percent js (VObj (<[k := v]> o)) = gpu_usage_percent js (VObj o).
Proof.
  intros H1 H2. unfold gpu_usage_percent, get.
  rewrite !lookup_insert_ne by done. reflexivity.
Qed.

Lemma legacy_gpu_usage_percent (g : value) :
  Legacy.gpu_usage_percent js g = gpu_usage_percent js g.
Proof. reflexivity. Qed.

(** The coercions never throw on a primitive. *)
Lemma ToNumber_primitive (v : value) :
  primitive v = true -> exists x, ToNumber js v = Ok x.
Proof. destruct v; cbn; try discriminate; eauto. Qed.

Lemma ToString_primitive (v : value) :
  primitive v = true -> exists str, ToString js v = Ok str.
Proof. destruct v; cbn; try discriminate; eauto. Qed.

Lemma getProgressColor_primitive (v : value) :
  primitive v = true -> exists colour, getProgressColor js v = Ok colour.
Proof.
  intros H. unfold getProgressColor.
  destruct (ToNumber_primitive v H) as [x ->]. cbn [bind]. eauto.
Qed.

Lemma element_key_primitive (v : value) :
  primitive v = true -> exists key, element_key js v = Ok key.
Proof.
  intros H. unfold element_key. destruct (ToString_primitive v H) as [str E].
  destruct v; try discriminate; try (rewrite E; cbn [bind]); eauto.
Qed.

Lemma temperature_color_primitive (o : gmap string value) :
  primitive (field o "temperature") = true ->
  exists colour, temperature_color js (VObj o) = Ok colour.
Proof.
  unfold field. intros H. unfold temperature_color, parseInt.
  cbn [get bind]. destruct (ToString_primitive _ H) as [str ->].
  cbn [bind]. unfold getProgressColor. cbn [ToNumber bind]. eauto.
Qed.

(** What a rendered GPU card holds. *)
Lemma render_gpu_inv (gpu : value) (card : GpuCard) :
  render_gpu js gpu = Ok card ->
  gpu_usage_percent js gpu = Ok (gpu_progress card) /\
  gpu_color js gpu = Ok (progress_color (gpu_progress card)) /\
  get gpu "memory_used" = Ok (gpu_memory_used card) /\
  get gpu "memory_total" = Ok (gpu_memory_total card) /\
  (exists user, get gpu "user" = Ok user /\
                gpu_user card = js_or user (VStr "No user")).
Proof.
  unfold render_gpu. intros H.
  destruct (get gpu "id") as [id|]; cbn [bind] in H; [|discriminate].
  destruct (get gpu "name") as [name|]; cbn [bind] in H; [|discriminate].
  destruct (get gpu "memory_used") as [used|]; cbn [bind] in H;
    [|discriminate].
  destruct (get gpu "memory_total") as [total|]; cbn [bind] in H;
    [|discriminate].
  unfold gpu_color in *.
  destruct (gpu_usage_percent js gpu) as [pct|]; cbn [bind] in H;
    [|discriminate].
  unfold getProgressColor in *. cbn [ToNumber bind] in *.
  destruct (temperature_color js gpu) as [tc|]; cbn [bind] in H;
    [|discriminate].
  destruct (get gpu "temperature") as [temp|]; cbn [bind] in H;
    [|discriminate].
  destruct (get gpu "power_usage") as [power|]; cbn [bind] in H;
    [|discriminate].
  destruct (get gpu "user") as [user|]; cbn [bind] in H; [|discriminate].
  destruct (element_key js id) as [key|]; cbn [bind] in H; [|discriminate].
  injection H as <-. cbn. repeat split. eauto.
Qed.

(** A GPU object whose [id], memory fields and [temperature] are
    primitives always yields a card. *)
Lemma render_gpu_primitive (o : gmap string value) :
  primitive (field o "id") = true ->
  primitive (field o "memory_used") = true ->
  primitive (field o "memory_total") = true ->
  primitive (field o "temperature") = true ->
  exists card, render_gpu js (VObj o) = Ok card.
Proof.
  intros Hi Hu Ht Htemp.
  destruct (ToNumber_primitive _ Hu) as [u Eu],
    (ToNumber_primitive _ Ht) as [t Et].
  assert (gpu_usage_percent js (VObj o) = Ok (u / t * 100)%float) as Hp.
  { unfold gpu_usage_percent, js_div. cbn [get bind].
    fold (field o "memory_used"). fold (field o "memory_total").
    rewrite Eu, Et. reflexivity. }
  destruct (temperature_color_primitive o Htemp) as [tc Htc],
    (element_key_primitive _ Hi) as [key Hk].
  unfold render_gpu, gpu_color, getProgressColor. rewrite Hp, Htc.
  cbn [get bind ToNumber]. fold (field o "id"). rewrite Hk.
  cbn [bind]. eauto.
Qed.

(** A GPU object with numeric memory fields and a primitive [id] and
    [temperature] always yields a card, and the card's progress value is
    the derived percentage. *)
Lemma render_gpu_numbers (o : gmap string value) (u t : float) :
  o !! "memory_used" = Some (VNum u) ->
  o !! "memory_total" = Some (VNum t) ->
  primitive (field o "id") = true ->
  primitive (field o "temperature") = true ->
  exists card, render_gpu js (VObj o) = Ok card /\
               gpu_progress card = (u / t * 100)%float /\
               gpu_memory_used card = VNum u /\
               gpu_memory_total card = VNum t.
Proof.
  intros Hu Ht Hi Htemp.
  destruct (render_gpu_primitive o Hi) as [card Hc]; try assumption.
  - unfold field. rewrite Hu. reflexivity.
  - unfold field. rewrite Ht. reflexivity.
  - exists card. split; [exact Hc|].
    destruct (render_gpu_inv _ _ Hc) as (Hp & _ & Hused & Htot & _).
    rewrite (gpu_usage_percent_numbers o u t Hu Ht) in Hp.
    unfold get in Hused, Htot. rewrite Hu in Hused. rewrite Ht in Htot.
    cbn in Hused, Htot. injection Hused as <-. injection Htot as <-.
    split; [|split; reflexivity].
    apply (f_equal (fun r => match r with Ok x => x | Throw _ => nan end))
      in Hp. symmetry. exact Hp.
Qed.

End GpuBar.

(** C1, as the code has it.  The client derives the GPU memory-usage
    percentage as [(memory_used / memory_total) * 100] without any guard
    on the total.  On numeric fields the expression never faults, but for
    a zero [memory_total] its value is NaN or an infinity, not 0.  The
    zero-total defence belongs to the collector's memory and disk rule
    ([Collector.usage_percent], written from the specification), which
    yields 0 for a zero total and [used / total * 100] otherwise. *)
Theorem gpu_percentage_has_no_zero_guard
    (js : Intrinsics) (o : gmap string value) (u t : float) :
  o !! "memory_used" = Some (VNum u) ->
  o !! "memory_total" = Some (VNum t) ->
  gpu_usage_percent js (VObj o) = Ok (u / t * 100)%float /\
  (PrimFloat.is_zero t = true -> Num.isFinite (u / t * 100) = false) /\
  (PrimFloat.is_zero t = true ->
   Collector.usage_percent {| Collector.used := u; Collector.total := t |}
   = 0%float) /\
  (PrimFloat.is_zero t = false ->
   Collector.usage_percent {| Collector.used := u; Collector.total := t |}
   = (u / t * 100)%float).
Proof.
  intros Hu Ht. split; [now apply gpu_usage_percent_numbers|].
  split; [apply percent_of_zero_total|].
  unfold Collector.usage_percent; cbn [Collector.total Collector.used].
  split; intros ->; reflexivity.
Qed.

Lemma gpu_percentage_has_no_zero_guard_witness :
  gpu_usage_percent sample_intrinsics
    (obj [("memory_used", VNum 8192); ("memory_total", VNum 16384)])
  = Ok 50%float.
Proof.
  exact (proj1 (gpu_percentage_has_no_zero_guard sample_intrinsics
    (list_to_map [("memory_used", VNum 8192); ("memory_total", VNum 16384)])
    8192 16384 eq_refl eq_refl)).
Defined.

(** A GPU reporting [memory_total = 0]: the bar value is Infinity for a
    positive [memory_used] and NaN for [memory_used = 0], never 0. *)
Lemma gpu_percentage_of_zero_total :
  gpu_usage_percent sample_intrinsics
    (obj [("memory_used", VNum 1024); ("memory_total", VNum 0)])
  = Ok infinity /\
  gpu_usage_percent sample_intrinsics
    (obj [("memory_used", VNum 0); ("memory_total", VNum 0)])
  = Ok nan /\
  gpu_usage_percent sample_intrinsics
    (obj [("memory_used", VNum 1024); ("memory_total", VNum 0)])
  <> Ok 0%float /\
  Num.isFinite infinity = false /\ Num.isFinite nan = false.
Proof.
  repeat split; try reflexivity.
  intros H.
  apply (f_equal (fun r => match r with
                           | Ok x => PrimFloat.is_zero x
                           | Throw _ => false
                           end)) in H.
  vm_compute in H. discriminate.
Qed.

(** C2.  For every GPU record with numeric [memory_used] and
    [memory_total], the usage shown by the bar is derived as
    [memory_used / memory_total * 100] in both revisions of the client; it
    is never read from the record: whatever other property the record
    carries (a [usage_percent] emitted upstream, say) leaves it unchanged,
    every card rendered for the record carries the derived value, and a
    card is rendered whenever the record's [id] and [temperature] are
    primitives.  For memory_used = 1024 and memory_total = 16384 it is
    6.25. *)
Theorem gpu_usage_is_derived
    (js : Intrinsics) (o : gmap string value) (u t : float)
    (k : string) (v : value) :
  o !! "memory_used" = Some (VNum u) ->
  o !! "memory_total" = Some (VNum t) ->
  k <> "memory_used" -> k <> "memory_total" ->
  gpu_usage_percent js (VObj (<[k := v]> o)) = Ok (u / t * 100)%float /\
  Legacy.gpu_usage_percent js (VObj (<[k := v]> o)) = Ok (u / t * 100)%float /\
  (forall card, render_gpu js (VObj (<[k := v]> o)) = Ok card ->
                gpu_progress card = (u / t * 100)%float) /\
  (primitive (field (<[k := v]> o) "id") = true ->
   primitive (field (<[k := v]> o) "temperature") = true ->
   exists card, render_gpu js (VObj (<[k := v]> o)) = Ok card /\
                gpu_progress card = (u / t * 100)%float) /\
  gpu_usage_percent js tesla_t4 = Ok 6.25%float /\
  Legacy.gpu_usage_percent js tesla_t4 = Ok 6.25%float.
Proof.
  intros Hu Ht H1 H2.
  assert (gpu_usage_percent js (VObj (<[k := v]> o)) = Ok (u / t * 100)%float)
    as E.
  { rewrite gpu_usage_percent_frame by assumption.
    now apply gpu_usage_percent_numbers. }
  split; [exact E|]. split; [exact E|]. split; [|split].
  - intros card Hc. destruct (render_gpu_inv js _ _ Hc) as (Hp & _).
    rewrite E in Hp.
    apply (f_equal (fun r => match r with Ok x => x | Throw _ => nan end))
      in Hp. symmetry. exact Hp.
  - intros Hi Htemp.
    destruct (render_gpu_numbers js (<[k := v]> o) u t)
      as (card & Hc & Hp & _); try assumption.
    + rewrite lookup_insert_ne by done. exact Hu.
    + rewrite lookup_insert_ne by done. exact Ht.
    + eauto.
  - split; reflexivity.
Qed.

Lemma gpu_usage_is_derived_witness :
  gpu_usage_percent sample_intrinsics
    (VObj (<["usage_percent" := VNum 99]>
       (list_to_map [("memory_used", VNum 1024);
                     ("memory_total", VNum 16384)])))
  = Ok 6.25%float.
Proof.
  exact (proj1 (gpu_usage_is_derived sample_intrinsics
    (list_to_map [("memory_used", VNum 1024); ("memory_total", VNum 16384)])
    1024 16384 "usage_percent" (VNum 99) eq_refl eq_refl
    ltac:(discriminate) ltac:(discriminate))).
Defined.

(* ================================================================== *)
(** * The system cards and missing metrics *)
(* ================================================================== *)

Section Cards.

Variable js : Intrinsics.

(** The optional read of a field of a missing metric is nullish. *)
Lemma read_missing (sr : gmap string value) k fields f :
  missing sr k fields = true -> In f fields ->
  exists v, read (VObj sr) k f = Ok v /\ nullish v = true.
Proof.
  unfold missing, read, get. intros Hm Hf.
  destruct (sr !! k) as [w|]; cbn [default bind] in *.
  - destruct w; cbn in Hm; try discriminate; cbn; eauto.
    unfold get_opt, get; cbn.
    rewrite forallb_forall in Hm. specialize (Hm f Hf). eauto.
  - cbn. eauto.
Qed.

Lemma js_or_nullish v d : nullish v = true -> js_or v d = d.
Proof. destruct v; cbn; try discriminate; reflexivity. Qed.

Lemma call_toFixed_opt_nullish v f :
  nullish v = true -> call_toFixed_opt js v f = Ok VUndefined.
Proof. unfold call_toFixed_opt. intros ->. reflexivity. Qed.

Ltac missing_field Hm f :=
  let v := fresh "v" in
  let E := fresh "E" in
  let N := fresh "N" in
  destruct (read_missing _ _ _ f Hm) as (v & E & N);
  [ cbn; tauto
  | rewrite E; cbn [bind];
    rewrite ?(call_toFixed_opt_nullish v _ N); cbn [bind];
    rewrite ?(js_or_nullish v _ N); cbn [ToNumber bind] ].

Lemma render_cpu_missing (sr : gmap string value) :
  missing sr "cpu" ["usage_percent"; "cores"] = true ->
  render_cpu js (VObj sr) = Ok cpu_fallback.
Proof.
  intros Hm. unfold render_cpu, cpu_color, getProgressColor.
  missing_field Hm "usage_percent". missing_field Hm "cores".
  reflexivity.
Qed.

Lemma render_memory_missing (sr : gmap string value) :
  missing sr "memory" ["usage_percent"; "used"; "total"] = true ->
  render_memory js (VObj sr) = Ok memory_fallback.
Proof.
  intros Hm. unfold render_memory, memory_color, getProgressColor.
  missing_field Hm "usage_percent". missing_field Hm "used".
  missing_field Hm "total". reflexivity.
Qed.

Lemma render_disk_missing (sr : gmap string value) :
  missing sr "disk" ["usage_percent"; "used"; "total"] = true ->
  render_disk js (VObj sr) = Ok disk_fallback.
Proof.
  intros Hm. unfold render_disk, disk_color, getProgressColor.
  missing_field Hm "usage_percent". missing_field Hm "used".
  missing_field Hm "total". reflexivity.
Qed.

Lemma render_summary_missing (sr : gmap string value) :
  missing sr "storage_summary"
    ["used"; "total"; "usage_percent"; "available"] = true ->
  render_summary js (VObj sr) = Ok summary_fallback.
Proof.
  intros Hm. unfold render_summary, summary_color, getProgressColor.
  missing_field Hm "used". missing_field Hm "total".
  missing_field Hm "usage_percent". missing_field Hm "available".
  reflexivity.
Qed.

(** Deleting a property makes its metric missing and leaves the reads
    of every other property alone. *)
Lemma missing_delete (sr : gmap string value) k fields :
  missing (delete k sr) k fields = true.
Proof. unfold missing. rewrite lookup_delete_eq. reflexivity. Qed.

Lemma read_delete_ne (sr : gmap string value) k k' f :
  k <> k' -> read (VObj (delete k sr)) k' f = read (VObj sr) k' f.
Proof.
  intros H. unfold read, get. rewrite lookup_delete_ne by done. reflexivity.
Qed.

Lemma render_cpu_delete_ne (sr : gmap string value) k :
  k <> "cpu" -> render_cpu js (VObj (delete k sr)) = render_cpu js (VObj sr).
Proof.
  intros H. unfold render_cpu, cpu_color. rewrite !read_delete_ne; done.
Qed.

Lemma render_memory_delete_ne (sr : gmap string value) k :
  k <> "memory" ->
  render_memory js (VObj (delete k sr)) = render_memory js (VObj sr).
Proof.
  intros H. unfold render_memory, memory_color.
  rewrite !read_delete_ne; done.
Qed.

Lemma render_disk_delete_ne (sr : gmap string value) k :
  k <> "disk" ->
  render_disk js (VObj (delete k sr)) = render_disk js (VObj sr).
Proof.
  intros H. unfold render_disk, disk_color. rewrite !read_delete_ne; done.
Qed.

Lemma render_system_inv (sr : value) v :
  render_system js sr = Ok v ->
  render_cpu js sr = Ok (cpu_card v) /\
  render_memory js sr = Ok (memory_card v) /\
  render_disk js sr = Ok (disk_card v).
Proof.
  unfold render_system.
  destruct (render_cpu js sr); cbn; [|discriminate].
  destruct (render_memory js sr); cbn; [|discriminate].
  destruct (render_disk js sr); cbn; [|discriminate].
  intros [= <-]. auto.
Qed.

(** Once the error is set and the spinner is gone, [App] is the error
    screen, whatever snapshot is stored. *)
Lemma App_error (s : State) :
  loading s = false -> truthy (error s) = true ->
  App js s = Ok (ErrorScreen (error s)).
Proof. intros Hl He. unfold App. rewrite Hl, He. reflexivity. Qed.

Lemma fetch_error_message_truthy env :
  truthy (VStr (fetch_error_message env)) = true.
Proof. reflexivity. Qed.

End Cards.

Section Dashboard.

Variable js : Intrinsics.

Lemma get_delete_ne (sr : gmap string value) k k' :
  k <> k' -> get (VObj (delete k sr)) k' = get (VObj sr) k'.
Proof. intros H. unfold get. rewrite lookup_delete_ne by done. reflexivity. Qed.

Lemma render_summary_delete_ne (sr : gmap string value) k :
  k <> "storage_summary" ->
  render_summary js (VObj (delete k sr)) = render_summary js (VObj sr).
Proof.
  intros H. unfold render_summary, summary_color.
  rewrite !read_delete_ne; done.
Qed.

(** The storage section reads [storage_disks] and [storage_summary]
    only. *)
Lemma render_storage_delete_ne (sr : gmap string value) k :
  k <> "storage_disks" -> k <> "storage_summary" ->
  render_storage js (VObj (delete k sr)) = render_storage js (VObj sr).
Proof.
  intros H1 H2. unfold render_storage.
  rewrite get_delete_ne, render_summary_delete_ne by done. reflexivity.
Qed.

(** What a rendered dashboard says about the state it came from. *)
Lemma App_dashboard_inv (s : State) t sys sto g u :
  App js s = Ok (Dashboard t sys sto g u) ->
  loading s = false /\ truthy (error s) = false /\ t = lastUpdated s /\
  exists gv uv srv,
    get (gpuData s) "gpus" = Ok gv /\
    get (gpuData s) "user_resources" = Ok uv /\
    get (gpuData s) "system_resources" = Ok srv /\
    render_system js srv = Ok sys /\
    render_storage js srv = Ok sto /\
    array_map gv (render_gpu js) = Ok g /\
    render_users js uv = Ok u.
Proof.
  unfold App.
  destruct (loading s) eqn:Hl; [discriminate|].
  destruct (truthy (error s)) eqn:He; [discriminate|].
  destruct (get (gpuData s) "gpus") as [gv|] eqn:H1;
    cbn [bind]; [|discriminate].
  destruct (get (gpuData s) "user_resources") as [uv|] eqn:H2;
    cbn [bind]; [|discriminate].
  destruct (get (gpuData s) "system_resources") as [srv|] eqn:H3;
    cbn [bind]; [|discriminate].
  destruct (render_system js srv) as [sys'|] eqn:H4;
    cbn [bind]; [|discriminate].
  destruct (render_storage js srv) as [sto'|] eqn:H5;
    cbn [bind]; [|discriminate].
  destruct (array_map gv (render_gpu js)) as [g'|] eqn:H6;
    cbn [bind]; [|discriminate].
  destruct (render_users js uv) as [u'|] eqn:H7;
    cbn [bind]; [|discriminate].
  intros [= <- <- <- <- <-]. do 3 (split; [reflexivity|]).
  exists gv, uv, srv. repeat split; assumption.
Qed.

Lemma App_dashboard_intro (s : State) gv uv srv sys sto g u :
  loading s = false -> truthy (error s) = false ->
  get (gpuData s) "gpus" = Ok gv ->
  get (gpuData s) "user_resources" = Ok uv ->
  get (gpuData s) "system_resources" = Ok srv ->
  render_system js srv = Ok sys ->
  render_storage js srv = Ok sto ->
  array_map gv (render_gpu js) = Ok g ->
  render_users js uv = Ok u ->
  App js s = Ok (Dashboard (lastUpdated s) sys sto g u).
Proof.
  intros Hl He H1 H2 H3 H4 H5 H6 H7. unfold App.
  rewrite Hl, He, H1, H2, H3. cbn [bind].
  rewrite H4, H5, H6, H7. reflexivity.
Qed.

(** Replacing [system_resources] by a variant that renders the same
    storage section changes the system cards and nothing else. *)
Lemma App_with_system_resources (s : State) d sr sr' t sys sys' sto g u :
  gpuData s = VObj d ->
  d !! "system_resources" = Some (VObj sr) ->
  App js s = Ok (Dashboard t sys sto g u) ->
  render_system js (VObj sr') = Ok sys' ->
  render_storage js (VObj sr') = render_storage js (VObj sr) ->
  App js (with_system_resources sr' d s) = Ok (Dashboard t sys' sto g u).
Proof.
  intros Hd Hsr HA Hsys Hsto.
  apply App_dashboard_inv in HA
    as (Hl & He & -> & gv & uv & srv & H1 & H2 & H3 & H4 & H5 & H6 & H7).
  rewrite Hd in H1, H2, H3. unfold get in H1, H2, H3.
  rewrite Hsr in H3. cbn [default] in H3. injection H3 as <-.
  apply (App_dashboard_intro (with_system_resources sr' d s)
           gv uv (VObj sr')); try assumption.
  - unfold with_system_resources, get; cbn [gpuData setGpuData].
    rewrite lookup_insert_ne by done. exact H1.
  - unfold with_system_resources, get; cbn [gpuData setGpuData].
    rewrite lookup_insert_ne by done. exact H2.
  - unfold with_system_resources, get; cbn [gpuData setGpuData].
    rewrite lookup_insert_eq. reflexivity.
  - rewrite Hsto. exact H5.
Qed.

End Dashboard.

(* ================================================================== *)
(** * Missing metrics and failed fetches *)
(* ================================================================== *)

(** C3, as the code has it.  In a snapshot that renders as a dashboard,
    dropping one of the cpu, memory or disk metrics from
    [system_resources] replaces that metric's card by its placeholder (0
    and 'N/A'; the client has no "stale" marker) and leaves every other
    part of the dashboard as it was.  A failed fetch is different: from
    the same state it replaces the whole display by the error screen. *)
Theorem missing_metric_placeholder_failed_fetch_error_screen
    (js : Intrinsics) (s : State) (d sr : gmap string value)
    (t : Z) (sys : SystemSection) (sto : StorageSection)
    (g : list GpuCard) (u : UsersCard) :
  gpuData s = VObj d ->
  d !! "system_resources" = Some (VObj sr) ->
  App js s = Ok (Dashboard t sys sto g u) ->
  App js (with_system_resources (delete "cpu" sr) d s)
    = Ok (Dashboard t (with_cpu cpu_fallback sys) sto g u) /\
  App js (with_system_resources (delete "memory" sr) d s)
    = Ok (Dashboard t (with_memory memory_fallback sys) sto g u) /\
  App js (with_system_resources (delete "disk" sr) d s)
    = Ok (Dashboard t (with_disk disk_fallback sys) sto g u) /\
  (forall env now,
     App js (fetchData env Rejected now s)
     = Ok (ErrorScreen (VStr (fetch_error_message env)))).
Proof.
  intros Hd Hsr HA.
  pose proof (App_dashboard_inv js s t sys sto g u HA)
    as (_ & _ & _ & gv & uv & srv & _ & _ & H3 & Hsys & _).
  rewrite Hd in H3. unfold get in H3. rewrite Hsr in H3.
  cbn [default] in H3. injection H3 as <-.
  apply render_system_inv in Hsys as (Hc & Hm & Hk).
  split; [|split; [|split]].
  - apply (App_with_system_resources js s d sr _ t sys _ sto g u Hd Hsr HA).
    + unfold render_system.
      rewrite render_cpu_missing by apply missing_delete.
      rewrite render_memory_delete_ne, render_disk_delete_ne by done.
      rewrite Hm, Hk. reflexivity.
    + apply render_storage_delete_ne; done.
  - apply (App_with_system_resources js s d sr _ t sys _ sto g u Hd Hsr HA).
    + unfold render_system.
      rewrite render_memory_missing by apply missing_delete.
      rewrite render_cpu_delete_ne, render_disk_delete_ne by done.
      rewrite Hc, Hk. reflexivity.
    + apply render_storage_delete_ne; done.
  - apply (App_with_system_resources js s d sr _ t sys _ sto g u Hd Hsr HA).
    + unfold render_system.
      rewrite render_disk_missing by apply missing_delete.
      rewrite render_cpu_delete_ne, render_memory_delete_ne by done.
      rewrite Hc, Hm. reflexivity.
    + apply render_storage_delete_ne; done.
  - intros env now. apply (App_error js (fetchData env Rejected now s)).
    + reflexivity.
    + apply fetch_error_message_truthy.
Qed.

Lemma missing_metric_placeholder_failed_fetch_error_screen_witness :
  gpuData after_first_poll = VObj sample_data /\
  sample_data !! "system_resources" = Some (VObj sample_system_resources) /\
  App sample_intrinsics after_first_poll
    = Ok (Dashboard 1000 sample_system (StorageHidden VUndefined)
            [sample_gpu_card] (UsersTable [sample_user_row])) /\
  App sample_intrinsics
      (with_system_resources (delete "disk" sample_system_resources)
         sample_data after_first_poll)
    = Ok (Dashboard 1000 (with_disk disk_fallback sample_system)
            (StorageHidden VUndefined)
            [sample_gpu_card] (UsersTable [sample_user_row])).
Proof.
  assert (gpuData after_first_poll = VObj sample_data) as Hd
    by (vm_compute; reflexivity).
  assert (sample_data !! "system_resources"
          = Some (VObj sample_system_resources)) as Hsr
    by (vm_compute; reflexivity).
  assert (App sample_intrinsics after_first_poll
          = Ok (Dashboard 1000 sample_system (StorageHidden VUndefined)
                  [sample_gpu_card] (UsersTable [sample_user_row]))) as HA
    by (vm_compute; reflexivity).
  split; [exact Hd|]. split; [exact Hsr|]. split; [exact HA|].
  exact (proj1 (proj2 (proj2
    (missing_metric_placeholder_failed_fetch_error_screen
       sample_intrinsics after_first_poll sample_data
       sample_system_resources 1000 sample_system
       (StorageHidden VUndefined) [sample_gpu_card]
       (UsersTable [sample_user_row]) Hd Hsr HA)))).
Defined.

(** One failed poll after a successful one: the dashboard that was on
    display is replaced as a whole by the error screen. *)
Lemma failed_poll_replaces_the_dashboard :
  match App sample_intrinsics after_first_poll with
  | Ok v => is_dashboard v
  | Throw _ => false
  end = true /\
  App sample_intrinsics (fetchData None Rejected 6000 after_first_poll)
  = Ok (ErrorScreen (VStr (fetch_error_message None))) /\
  match App sample_intrinsics
          (fetchData None Rejected 6000 after_first_poll) with
  | Ok v => is_error_screen v
  | Throw _ => false
  end = true /\
  gpuData (fetchData None Rejected 6000 after_first_poll)
  = gpuData after_first_poll.
Proof. repeat split; vm_compute; reflexivity. Qed.

(** C9, as the code has it.  With [system_resources] an object, each of
    its cpu, memory, disk and storage_summary members that is missing
    (absent, null, or without the fields its card reads) is read through
    optional chaining and shown as a fixed placeholder: 0 or 'N/A' on the
    cpu, memory and disk cards, '0G' and 0 in the storage summary.  No
    such read faults, so a snapshot whose [system_resources] is empty
    renders as a dashboard of placeholders next to its GPU cards and its
    users card. *)
Theorem missing_system_fields_fall_back
    (js : Intrinsics) (sr : gmap string value) :
  (missing sr "cpu" ["usage_percent"; "cores"] = true ->
   render_cpu js (VObj sr) = Ok cpu_fallback) /\
  (missing sr "memory" ["usage_percent"; "used"; "total"] = true ->
   render_memory js (VObj sr) = Ok memory_fallback) /\
  (missing sr "disk" ["usage_percent"; "used"; "total"] = true ->
   render_disk js (VObj sr) = Ok disk_fallback) /\
  (missing sr "storage_summary"
     ["used"; "total"; "usage_percent"; "available"] = true ->
   render_summary js (VObj sr) = Ok summary_fallback) /\
  (forall (s : State) (d : gmap string value) cards users,
     loading s = false -> truthy (error s) = false ->
     gpuData s = VObj d ->
     d !! "system_resources" = Some (VObj sr) ->
     missing sr "cpu" ["usage_percent"; "cores"] = true ->
     missing sr "memory" ["usage_percent"; "used"; "total"] = true ->
     missing sr "disk" ["usage_percent"; "used"; "total"] = true ->
     sr !! "storage_disks" = None ->
     array_map (default VUndefined (d !! "gpus")) (render_gpu js) = Ok cards ->
     render_users js (default VUndefined (d !! "user_resources")) = Ok users ->
     App js s = Ok (Dashboard (lastUpdated s) system_fallback
                      (StorageHidden VUndefined) cards users)).
Proof.
  split; [apply render_cpu_missing|].
  split; [apply render_memory_missing|].
  split; [apply render_disk_missing|].
  split; [apply render_summary_missing|].
  intros s d cards users Hl He Hd Hsr Hc Hm Hk Hsd Hg Hu.
  apply (App_dashboard_intro js s (default VUndefined (d !! "gpus"))
           (default VUndefined (d !! "user_resources")) (VObj sr));
    try assumption.
  - rewrite Hd. reflexivity.
  - rewrite Hd. reflexivity.
  - rewrite Hd. unfold get. rewrite Hsr. reflexivity.
  - unfold render_system.
    rewrite (render_cpu_missing js sr Hc), (render_memory_missing js sr Hm),
      (render_disk_missing js sr Hk). reflexivity.
  - unfold render_storage, get. rewrite Hsd. reflexivity.
Qed.

Lemma missing_system_fields_fall_back_witness :
  missing ∅ "cpu" ["usage_percent"; "cores"] = true /\
  render_cpu sample_intrinsics (VObj ∅) = Ok cpu_fallback /\
  App sample_intrinsics
    (fetchData None
       (Fulfilled (obj [("gpus", VArr [tesla_t4]);
                        ("user_resources", VArr []);
                        ("system_resources", VObj ∅)]))
       1000 (initial_state 0))
  = Ok (Dashboard 1000 system_fallback (StorageHidden VUndefined)
          [sample_gpu_card] NoActiveUsers).
Proof.
  split; [reflexivity|]. split.
  - exact (proj1 (missing_system_fields_fall_back sample_intrinsics ∅)
             eq_refl).
  - exact (proj2 (proj2 (proj2 (proj2
             (missing_system_fields_fall_back sample_intrinsics ∅))))
             (fetchData None
                (Fulfilled (obj [("gpus", VArr [tesla_t4]);
                                 ("user_resources", VArr []);
                                 ("system_resources", VObj ∅)]))
                1000 (initial_state 0))
             (list_to_map [("gpus", VArr [tesla_t4]);
                           ("user_resources", VArr []);
                           ("system_resources", VObj ∅)])
             [sample_gpu_card] NoActiveUsers
             eq_refl eq_refl eq_refl eq_refl eq_refl eq_refl eq_refl
             eq_refl eq_refl eq_refl).
Defined.

(** A payload without [system_resources]: reading [.cpu] of undefined
    throws, and nothing is rendered. *)
Lemma absent_system_resources_faults :
  App sample_intrinsics
    (fetchData None
       (Fulfilled (obj [("gpus", VArr [tesla_t4]);
                        ("user_resources", VArr [alice])]))
       1000 (initial_state 0))
  = Throw TypeError.
Proof. vm_compute. reflexivity. Qed.

(* ================================================================== *)
(** * The users table *)
(* ================================================================== *)

Section UsersTable.

Variable js : Intrinsics.

Lemma gpu_memory_cell_absent_or_zero (u : gmap string value) :
  absent_or_zero u "gpu_memory_usage" = true ->
  gpu_memory_cell js (VObj u) = Ok "None".
Proof.
  unfold absent_or_zero, gpu_memory_cell, get.
  destruct (u !! "gpu_memory_usage") as [[]|];
    cbn [default from_option id bind]; try discriminate.
  - intros Hz. unfold js_gt; cbn [ToNumber bind].
    rewrite (zero_not_gt _ Hz). reflexivity.
  - reflexivity.
Qed.

Lemma storage_cell_absent_or_zero (u : gmap string value) :
  absent_or_zero u "storage_usage" = true ->
  storage_cell js (VObj u) = Ok "N/A".
Proof.
  unfold absent_or_zero, storage_cell, get.
  destruct (u !! "storage_usage") as [[]|];
    cbn [default from_option id bind]; try discriminate.
  - intros Hz. unfold js_gt; cbn [ToNumber bind].
    rewrite (zero_not_gt _ Hz). reflexivity.
  - reflexivity.
Qed.

Lemma storage_cell_megabytes (u : gmap string value) (x : float) :
  u !! "storage_usage" = Some (VNum x) ->
  (0 <? x)%float = true -> (x <=? 1)%float = true ->
  storage_cell js (VObj u) = Ok (toFixed js (x * 1024) 0 +:+ "MB").
Proof.
  intros Hu Hpos Hle. unfold storage_cell, get. rewrite Hu.
  cbn [default from_option id bind]. unfold js_gt, js_mul; cbn [ToNumber bind].
  unfold Num.gt at 1. rewrite Hpos.
  rewrite (le_not_gt _ _ Hle). reflexivity.
Qed.

Lemma storage_cell_gigabytes (u : gmap string value) (x : float) :
  u !! "storage_usage" = Some (VNum x) ->
  (1 <? x)%float = true ->
  storage_cell js (VObj u) = Ok (toFixed js x 1 +:+ "G").
Proof.
  intros Hu Hgt. unfold storage_cell, get. rewrite Hu.
  cbn [default from_option id bind]. unfold js_gt; cbn [ToNumber bind].
  rewrite (gt_one_gt_zero x Hgt).
  unfold Num.gt. rewrite Hgt. reflexivity.
Qed.

End UsersTable.

(** C10.  In the users table a zero measurement is rendered as absence:
    a [gpu_memory_usage] that is 0 gives the text 'None' and a
    [storage_usage] that is 0 gives 'N/A', the very texts shown when the
    field is not there at all.  A positive [storage_usage] of at most 1
    is shown in MB, as [value * 1024] without decimals, and one above 1
    in G with one decimal. *)
Theorem zero_measurement_renders_as_absence
    (js : Intrinsics) (u : gmap string value) (x : float) :
  (absent_or_zero u "gpu_memory_usage" = true ->
   gpu_memory_cell js (VObj u) = Ok "None") /\
  (absent_or_zero u "storage_usage" = true ->
   storage_cell js (VObj u) = Ok "N/A") /\
  (u !! "storage_usage" = Some (VNum x) ->
   (0 <? x)%float = true -> (x <=? 1)%float = true ->
   storage_cell js (VObj u) = Ok (toFixed js (x * 1024) 0 +:+ "MB")) /\
  (u !! "storage_usage" = Some (VNum x) ->
   (1 <? x)%float = true ->
   storage_cell js (VObj u) = Ok (toFixed js x 1 +:+ "G")).
Proof.
  split; [apply gpu_memory_cell_absent_or_zero|].
  split; [apply storage_cell_absent_or_zero|].
  split; [apply storage_cell_megabytes|apply storage_cell_gigabytes].
Qed.

Lemma zero_measurement_renders_as_absence_witness :
  gpu_memory_cell sample_intrinsics
    (obj [("username", VStr "bob"); ("gpu_memory_usage", VNum 0)])
  = Ok "None" /\
  storage_cell sample_intrinsics
    (obj [("username", VStr "bob"); ("gpu_memory_usage", VNum 0)])
  = Ok "N/A" /\
  storage_cell sample_intrinsics (obj [("storage_usage", VNum 0.5)])
  = Ok "512MB" /\
  storage_cell sample_intrinsics (obj [("storage_usage", VNum 2.5)])
  = Ok "2.5G".
Proof.
  split; [|split; [|split]].
  - exact (proj1 (zero_measurement_renders_as_absence sample_intrinsics
      (list_to_map [("username", VStr "bob"); ("gpu_memory_usage", VNum 0)])
      0) eq_refl).
  - exact (proj1 (proj2 (zero_measurement_renders_as_absence
      sample_intrinsics
      (list_to_map [("username", VStr "bob"); ("gpu_memory_usage", VNum 0)])
      0)) eq_refl).
  - exact (proj1 (proj2 (proj2 (zero_measurement_renders_as_absence
      sample_intrinsics (list_to_map [("storage_usage", VNum 0.5)]) 0.5)))
      eq_refl eq_refl eq_refl).
  - exact (proj2 (proj2 (proj2 (zero_measurement_renders_as_absence
      sample_intrinsics (list_to_map [("storage_usage", VNum 2.5)]) 2.5)))
      eq_refl eq_refl).
Defined.

(* ================================================================== *)
(** * The collector: failure isolation *)
(* ================================================================== *)

Section Aggregator.

Import Collector.

Variable P : Parsers.



(** An unreachable host gives the snapshot that the cache recognises
    as a session-level failure. *)
Lemma collect_unreachable (remote : Remote) (now : Z) :
  reachable remote = false ->
  session_failure (collect P remote now) = true.
Proof. intros H. unfold collect. rewrite H. reflexivity. Qed.

End Aggregator.



(* ================================================================== *)
(** * The refresh cache: staleness and single flight *)
(* ================================================================== *)

Section Cache.

Import Collector RefreshCache.

Lemma arrive_refreshing (c : Cache) ws who maxAge now :
  phase c = Refreshing ws ->
  arrive who maxAge now c = (await who ws c, None).
Proof. intros H. unfold arrive. rewrite H. reflexivity. Qed.

Lemma arrive_idle_stale (c : Cache) who maxAge now :
  phase c = Idle -> fresh maxAge now c = None ->
  arrive who maxAge now c = (start who c, None).
Proof. intros H F. unfold arrive. rewrite H, F. reflexivity. Qed.

(** Calls arriving during a refresh only lengthen the queue. *)
Lemma arrive_all_refreshing (calls : list (Caller * Z * Z)) :
  forall (c : Cache) ws,
    phase c = Refreshing ws ->
    arrive_all calls c
    = {| published := published c; last_error := last_error c;
         phase := Refreshing (ws ++ callers calls);
         collections := collections c |}.
Proof.
  induction calls as [|[[who maxAge] now] rest IH]; intros c ws H.
  - cbn. rewrite app_nil_r, <- H. destruct c; reflexivity.
  - cbn [arrive_all callers map fst].
    rewrite (arrive_refreshing c ws who maxAge now H). cbn [fst].
    rewrite (IH (await who ws c) (ws ++ [who])%list) by reflexivity.
    cbn [await published last_error collections].
    rewrite <- app_assoc. reflexivity.
Qed.

(** The answer of [settle] does not depend on the queue. *)
Lemma settle_queue (snap : Snapshot) (c : Cache) ws :
  settle snap {| published := published c; last_error := last_error c;
                 phase := Refreshing ws; collections := collections c |}
  = (fst (settle snap c), snd (settle snap c)).
Proof. unfold settle. destruct (session_failure snap); reflexivity. Qed.

Lemma settle_collections (snap : Snapshot) (c : Cache) :
  collections (fst (settle snap c)) = collections c /\
  phase (fst (settle snap c)) = Idle.
Proof. unfold settle. destruct (session_failure snap); split; reflexivity. Qed.

End Cache.

(** C4.  When the cache is idle with a published snapshot older than
    [maxAge] and the refresh fails with a ConnectionError (the host is
    unreachable), [getCurrent] answers with that previous snapshot,
    [isStale = true], and the failure in the [lastError] status field; the
    published snapshot stays in place.  The answer is a value: nothing is
    raised. *)
Theorem stale_snapshot_served_on_connection_error
    (P : Collector.Parsers) (remote : Collector.Remote)
    (c : RefreshCache.Cache) (prev : Collector.Snapshot) (maxAge now : Z) :
  RefreshCache.phase c = RefreshCache.Idle ->
  RefreshCache.published c = Some prev ->
  (maxAge < now - Collector.captured_at prev)%Z ->
  Collector.reachable remote = false ->
  snd (RefreshCache.getCurrent (Collector.collect P remote) maxAge now c)
  = {| RefreshCache.snapshot := Some prev;
       RefreshCache.isStale := true;
       RefreshCache.lastError := Some Collector.ConnectionError |} /\
  RefreshCache.published
    (fst (RefreshCache.getCurrent (Collector.collect P remote) maxAge now c))
  = Some prev /\
  RefreshCache.last_error
    (fst (RefreshCache.getCurrent (Collector.collect P remote) maxAge now c))
  = Some Collector.ConnectionError /\
  RefreshCache.phase
    (fst (RefreshCache.getCurrent (Collector.collect P remote) maxAge now c))
  = RefreshCache.Idle.
Proof.
  intros Hi Hp Hage Hr.
  assert (RefreshCache.fresh maxAge now c = None) as F.
  { unfold RefreshCache.fresh. rewrite Hp. cbn.
    destruct (Z.leb_spec (now - Collector.captured_at prev) maxAge);
      [lia|reflexivity]. }
  unfold RefreshCache.getCurrent.
  rewrite (arrive_idle_stale c 0 maxAge now Hi F).
  unfold RefreshCache.settle.
  rewrite (collect_unreachable P remote now Hr).
  cbn. rewrite Hp. repeat split.
Qed.

Lemma stale_snapshot_served_on_connection_error_witness :
  RefreshCache.published warm_cache = Some sample_snapshot /\
  (5000 < 9000 - Collector.captured_at sample_snapshot)%Z /\
  Collector.reachable host_down = false /\
  snd (RefreshCache.getCurrent (Collector.collect sample_parsers host_down)
         5000 9000 warm_cache)
  = {| RefreshCache.snapshot := Some sample_snapshot;
       RefreshCache.isStale := true;
       RefreshCache.lastError := Some Collector.ConnectionError |}.
Proof.
  split; [reflexivity|]. split; [reflexivity|]. split; [reflexivity|].
  exact (proj1 (stale_snapshot_served_on_connection_error
                  sample_parsers host_down warm_cache sample_snapshot
                  5000 9000 eq_refl eq_refl eq_refl eq_refl)).
Defined.

(** C5.  While the cache is Refreshing, any number N of [getCurrent]
    calls, whatever their [maxAge] and arrival times, start no collection
    of their own: the invocation counter stays where the one collection in
    flight left it, also after that collection has returned.  When it
    returns, every one of the N callers is handed one and the same answer,
    which carries the collected snapshot unless the collection failed at
    the session level.  Counted from the idle cache whose expired read
    started the refresh, the whole flight is exactly one
    Aggregator.collect() invocation. *)
Theorem concurrent_calls_share_one_collection
    (c : RefreshCache.Cache) (ws : list RefreshCache.Caller)
    (calls : list (RefreshCache.Caller * Z * Z))
    (snap : Collector.Snapshot) :
  RefreshCache.phase c = RefreshCache.Refreshing ws ->
  RefreshCache.collections (RefreshCache.arrive_all calls c)
    = RefreshCache.collections c /\
  RefreshCache.collections
    (fst (RefreshCache.complete snap (RefreshCache.arrive_all calls c)))
    = RefreshCache.collections c /\
  RefreshCache.phase
    (fst (RefreshCache.complete snap (RefreshCache.arrive_all calls c)))
    = RefreshCache.Idle /\
  (forall who, In who (RefreshCache.callers calls) ->
     In (who, snd (RefreshCache.settle snap c))
        (snd (RefreshCache.complete snap (RefreshCache.arrive_all calls c)))) /\
  (forall who r,
     In (who, r)
        (snd (RefreshCache.complete snap (RefreshCache.arrive_all calls c))) ->
     r = snd (RefreshCache.settle snap c)) /\
  (Collector.session_failure snap = false ->
   RefreshCache.snapshot (snd (RefreshCache.settle snap c)) = Some snap) /\
  (forall c0 w0 maxAge0 now0,
     RefreshCache.phase c0 = RefreshCache.Idle ->
     RefreshCache.fresh maxAge0 now0 c0 = None ->
     c = fst (RefreshCache.arrive w0 maxAge0 now0 c0) ->
     RefreshCache.collections
       (fst (RefreshCache.complete snap (RefreshCache.arrive_all calls c)))
     = S (RefreshCache.collections c0)).
Proof.
  intros H.
  rewrite (arrive_all_refreshing calls c ws H).
  unfold RefreshCache.complete; cbn [RefreshCache.phase].
  rewrite settle_queue.
  destruct (settle_collections snap c) as [Hc Hp].
  cbn [fst snd RefreshCache.collections].
  split; [reflexivity|]. split; [exact Hc|]. split; [exact Hp|].
  split; [|split; [|split]].
  - intros who Hw. apply in_map_iff. exists who. split; [reflexivity|].
    apply in_or_app. right. exact Hw.
  - intros who r Hin. apply in_map_iff in Hin as (w & [= _ <-] & _).
    reflexivity.
  - intros Hs. unfold RefreshCache.settle. rewrite Hs. reflexivity.
  - intros c0 w0 maxAge0 now0 Hi F ->. rewrite Hc.
    rewrite (arrive_idle_stale c0 w0 maxAge0 now0 Hi F). reflexivity.
Qed.

Lemma concurrent_calls_share_one_collection_witness :
  RefreshCache.phase (RefreshCache.start 7 RefreshCache.empty)
    = RefreshCache.Refreshing [7] /\
  RefreshCache.collections
    (fst (RefreshCache.complete sample_snapshot
            (RefreshCache.arrive_all [(1, 0%Z, 10%Z); (2, 5000%Z, 11%Z); (3, 0%Z, 12%Z)]
               (RefreshCache.start 7 RefreshCache.empty))))
  = 1 /\
  snd (RefreshCache.complete sample_snapshot
         (RefreshCache.arrive_all [(1, 0%Z, 10%Z); (2, 5000%Z, 11%Z); (3, 0%Z, 12%Z)]
            (RefreshCache.start 7 RefreshCache.empty)))
  = map (fun w => (w, {| RefreshCache.snapshot := Some sample_snapshot;
                         RefreshCache.isStale := false;
                         RefreshCache.lastError := None |}))
        [7; 1; 2; 3].
Proof.
  split; [reflexivity|]. split.
  - exact (proj1 (proj2 (concurrent_calls_share_one_collection
      (RefreshCache.start 7 RefreshCache.empty) [7]
      [(1, 0%Z, 10%Z); (2, 5000%Z, 11%Z); (3, 0%Z, 12%Z)] sample_snapshot eq_refl))).
  - reflexivity.
Defined.

(* ================================================================== *)
(** * More facts about binary64 *)
(* ================================================================== *)

Section FloatOrder.

Lemma SFcompare_refl a : a <> S754_nan -> SFcompare a a = Some Eq.
Proof.
  destruct a as [s|s| |s m e]; cbn; try congruence; intros _.
  - destruct s; reflexivity.
  - rewrite Z.compare_refl.
    change (Pos.compare_cont Eq m m) with (Pos.compare m m).
    rewrite Pos.compare_refl. destruct s; reflexivity.
Qed.

Lemma is_nan_shape x : PrimFloat.is_nan x = true -> Prim2SF x = S754_nan.
Proof.
  unfold PrimFloat.is_nan. rewrite FloatAxioms.eqb_spec. unfold SFeqb.
  destruct (Prim2SF x) as [s|s| |s m e] eqn:E; try reflexivity;
    rewrite SFcompare_refl by congruence; discriminate.
Qed.

(** NaN compares false with everything. *)
Lemma nan_not_lt x c : PrimFloat.is_nan x = true -> (x <? c)%float = false.
Proof.
  intros H. rewrite FloatAxioms.ltb_spec, (is_nan_shape x H). reflexivity.
Qed.

Lemma SFcompare_le_lt_trans a b c :
  SFleb a b = true -> SFltb b c = true -> SFltb a c = true.
Proof.
  unfold SFleb, SFltb.
  destruct a as [sa|sa| |sa ma ea], b as [sb|sb| |sb mb eb],
    c as [sc|sc| |sc mc ec]; cbn; try discriminate; try reflexivity;
    repeat match goal with s : bool |- _ => destruct s end;
    cbn; try discriminate; try reflexivity.
  all: change (Pos.compare_cont Eq) with Pos.compare.
  all: destruct (Z.compare_spec ea eb), (Z.compare_spec eb ec),
         (Z.compare_spec ea ec); try lia; subst;
       cbn; try discriminate; try reflexivity.
  all: destruct (Pos.compare_spec ma mb), (Pos.compare_spec mb mc),
         (Pos.compare_spec ma mc); try lia; subst;
       cbn; try discriminate; try reflexivity.
Qed.

(** [x <= y] and [y < z] give [x < z]. *)
Lemma le_lt_trans x y z :
  (x <=? y)%float = true -> (y <? z)%float = true -> (x <? z)%float = true.
Proof.
  rewrite FloatAxioms.leb_spec, !FloatAxioms.ltb_spec.
  apply SFcompare_le_lt_trans.
Qed.

Lemma lt_le x y : (x <? y)%float = true -> (x <=? y)%float = true.
Proof.
  rewrite FloatAxioms.leb_spec, FloatAxioms.ltb_spec. unfold SFleb, SFltb.
  destruct (SFcompare (Prim2SF x) (Prim2SF y)) as [[]|]; congruence.
Qed.

Lemma lt_not_gt x y : (x <? y)%float = true -> (y <? x)%float = false.
Proof. intros H. apply (le_not_gt x y). apply lt_le. exact H. Qed.

Lemma div_nan_r u : PrimFloat.is_nan (u / nan * 100) = true.
Proof.
  apply nan_shape. rewrite FloatAxioms.mul_spec, FloatAxioms.div_spec.
  change (Prim2SF nan) with S754_nan.
  destruct (Prim2SF u); reflexivity.
Qed.

Lemma div_nan_l t : PrimFloat.is_nan (nan / t * 100) = true.
Proof.
  apply nan_shape. rewrite FloatAxioms.mul_spec, FloatAxioms.div_spec.
  change (Prim2SF nan) with S754_nan. reflexivity.
Qed.

End FloatOrder.

(** Integers as floats: the conversion of a positive integer is a
    positive number.  The proof follows the rounding of
    [binary_normalize]: a mantissa shifted to the 53 bits of the format
    keeps its leading bit. *)
Section Conversion.

Local Open Scope Z_scope.

Lemma iter_pos_nat {A} (f : A -> A) p x :
  SpecFloat.iter_pos f p x = Nat.iter (Pos.to_nat p) f x.
Proof.
  revert x. induction p as [p IH|p IH|]; intros x; cbn [SpecFloat.iter_pos].
  - rewrite !IH. rewrite Pos2Nat.inj_xI, Nat.iter_succ_r.
    replace (2 * Pos.to_nat p)%nat
      with (Pos.to_nat p + Pos.to_nat p)%nat by lia.
    rewrite Nat.iter_add. reflexivity.
  - rewrite !IH. rewrite Pos2Nat.inj_xO.
    replace (2 * Pos.to_nat p)%nat
      with (Pos.to_nat p + Pos.to_nat p)%nat by lia.
    rewrite Nat.iter_add. reflexivity.
  - reflexivity.
Qed.

Lemma shr_1_m r : 0 <= shr_m r -> shr_m (shr_1 r) = Z.div2 (shr_m r).
Proof.
  destruct r as [m r s]. cbn [shr_m]. intros H.
  destruct m as [|[p|p|]|p]; cbn; try reflexivity; lia.
Qed.

Lemma shr_iter_m k r :
  0 <= shr_m r -> shr_m (Nat.iter k shr_1 r) = Z.shiftr (shr_m r) (Z.of_nat k).
Proof.
  intros H. induction k as [|k IH].
  - reflexivity.
  - rewrite Nat.iter_succ. rewrite shr_1_m.
    + rewrite IH. rewrite Nat2Z.inj_succ. rewrite <- Z.add_1_r.
      rewrite <- Z.shiftr_shiftr by lia. rewrite Z.div2_spec. reflexivity.
    + rewrite IH. apply Z.shiftr_nonneg. exact H.
Qed.

Lemma digits2_log2 p : Z.pos (digits2_pos p) = Z.log2 (Z.pos p) + 1.
Proof.
  induction p as [p IH|p IH|]; cbn [digits2_pos].
  - rewrite Pos2Z.inj_succ, IH.
    change (Z.pos p~1) with (2 * Z.pos p + 1).
    rewrite Z.log2_succ_double by lia. lia.
  - rewrite Pos2Z.inj_succ, IH.
    change (Z.pos p~0) with (2 * Z.pos p).
    rewrite Z.log2_double by lia. lia.
  - reflexivity.
Qed.

Lemma shr_fexp_positive mx ex l :
  -1074 <= ex ->
  exists q, shr_m (fst (shr_fexp prec emax (Z.pos mx) ex l)) = Z.pos q /\
            -1074 <= snd (shr_fexp prec emax (Z.pos mx) ex l).
Proof.
  intros He. unfold shr_fexp, shr.
  set (k := fexp prec emax (Zdigits2 (Z.pos mx) + ex) - ex).
  assert (shr_m (shr_record_of_loc (Z.pos mx) l) = Z.pos mx) as Hm
    by (destruct l as [|[]]; reflexivity).
  destruct k as [|p|p] eqn:Hk; cbn [fst snd].
  - rewrite Hm. eauto.
  - rewrite iter_pos_nat, shr_iter_m by (rewrite Hm; lia).
    rewrite Hm, positive_nat_Z.
    assert (Z.pos p < Z.pos (digits2_pos mx)) as Hlt.
    { subst k. unfold fexp, emin, prec, emax in Hk.
      cbn [Zdigits2] in Hk. lia. }
    rewrite digits2_log2 in Hlt.
    assert (0 < Z.shiftr (Z.pos mx) (Z.pos p)) as Hpos.
    { rewrite Z.shiftr_div_pow2 by lia.
      apply Z.div_str_pos. split; [apply Z.pow_pos_nonneg; lia|].
      transitivity (2 ^ Z.log2 (Z.pos mx)).
      - apply Z.pow_le_mono_r; lia.
      - apply Z.log2_spec. lia. }
    destruct (Z.shiftr (Z.pos mx) (Z.pos p)) as [|q|q]; try lia.
    exists q. split; [reflexivity|lia].
  - rewrite Hm. eauto.
Qed.

Lemma round_nearest_even_positive q l :
  exists q', round_nearest_even (Z.pos q) l = Z.pos q'.
Proof.
  destruct l as [|[]]; cbn [round_nearest_even];
    try destruct (Z.even (Z.pos q)); cbn; eauto.
Qed.

Lemma binary_round_aux_positive mx ex l :
  -1074 <= ex ->
  (exists m e, binary_round_aux prec emax false (Z.pos mx) ex l
               = S754_finite false m e) \/
  binary_round_aux prec emax false (Z.pos mx) ex l = S754_infinity false.
Proof.
  intros He. unfold binary_round_aux.
  destruct (shr_fexp_positive mx ex l He) as (q & Hq & He').
  destruct (shr_fexp prec emax (Z.pos mx) ex l) as [r e'] eqn:E1.
  cbn [fst snd] in Hq, He'. rewrite Hq.
  destruct (round_nearest_even_positive q (loc_of_shr_record r)) as [q' ->].
  destruct (shr_fexp_positive q' e' loc_Exact He') as (q2 & Hq2 & _).
  destruct (shr_fexp prec emax (Z.pos q') e' loc_Exact) as [r2 e2] eqn:E2.
  cbn [fst] in Hq2. rewrite Hq2.
  destruct (e2 <=? emax - prec); eauto.
Qed.

Lemma binary_normalize_positive p :
  (exists m e, binary_normalize prec emax (Z.pos p) 0 false
               = S754_finite false m e) \/
  binary_normalize prec emax (Z.pos p) 0 false = S754_infinity false.
Proof.
  unfold binary_normalize, binary_round.
  destruct (shl_align p 0 (fexp prec emax (Z.pos (digits2_pos p) + 0)))
    as [mz ez] eqn:E.
  apply binary_round_aux_positive.
  unfold shl_align in E.
  destruct (fexp prec emax (Z.pos (digits2_pos p) + 0) - 0) eqn:K;
    injection E as <- <-; try lia.
  unfold fexp, emin, prec, emax. lia.
Qed.

(** The length of a non-empty array (below 2^63) is [> 0]. *)
Lemma of_nat_positive (n : nat) :
  (0 < n)%nat -> Z.of_nat n < 2 ^ 63 -> Num.gt (Num.of_nat n) 0 = true.
Proof.
  intros Hn Hb. unfold Num.gt, Num.of_nat.
  rewrite FloatAxioms.ltb_spec, FloatAxioms.of_uint63_spec.
  rewrite Uint63.of_Z_spec.
  rewrite Z.mod_small by (change Uint63Axioms.wB with (2 ^ 63); lia).
  destruct (Z.of_nat n) as [|p|p] eqn:E; try lia.
  change (Prim2SF 0) with (S754_zero false).
  destruct (binary_normalize_positive p) as [(m & e & ->)| ->]; reflexivity.
Qed.

End Conversion.

(* ================================================================== *)
(** * Progress colours *)
(* ================================================================== *)

Section ColourFacts.

Lemma colours_differ : green <> orange /\ green <> red /\ orange <> red.
Proof. repeat split; discriminate. Qed.

Lemma progress_color_green x :
  progress_color x = green <-> (x <? 50)%float = true.
Proof.
  unfold progress_color.
  destruct (x <? 50)%float; [tauto|].
  destruct (x <? 80)%float; split; discriminate.
Qed.

Lemma lt_50_lt_80 x : (x <? 50)%float = true -> (x <? 80)%float = true.
Proof.
  intros H. apply (le_lt_trans x 50 80); [apply lt_le; exact H|reflexivity].
Qed.

Lemma progress_color_red x :
  progress_color x = red <-> (x <? 80)%float = false.
Proof.
  unfold progress_color.
  destruct (x <? 50)%float eqn:E50.
  - rewrite (lt_50_lt_80 x E50). split; discriminate.
  - destruct (x <? 80)%float; split; try discriminate; reflexivity.
Qed.

Lemma progress_color_orange x :
  progress_color x = orange <->
  (x <? 50)%float = false /\ (x <? 80)%float = true.
Proof.
  unfold progress_color.
  destruct (x <? 50)%float.
  - split; [discriminate|intros [? _]; discriminate].
  - destruct (x <? 80)%float; split; try discriminate; try tauto.
    intros [_ ?]; discriminate.
Qed.

End ColourFacts.

(** X1.  [getProgressColor] is monotone: of two numbers, the larger is
    never painted in a calmer colour.  If the larger is green so is the
    smaller, if the smaller is red so is the larger, and an orange value
    has nothing red below it. *)
Theorem progress_color_monotone (x y : float) :
  (x <=? y)%float = true ->
  (progress_color y = green -> progress_color x = green) /\
  (progress_color x = red -> progress_color y = red) /\
  (progress_color y = orange -> progress_color x <> red).
Proof.
  intros Hle. split; [|split].
  - rewrite !progress_color_green. apply le_lt_trans. exact Hle.
  - rewrite !progress_color_red. intros Hx.
    destruct (y <? 80)%float eqn:Hy; [|reflexivity].
    rewrite (le_lt_trans x y 80 Hle Hy) in Hx. discriminate.
  - rewrite progress_color_orange, progress_color_red. intros [_ Hy] Hx.
    rewrite (le_lt_trans x y 80 Hle Hy) in Hx. discriminate.
Qed.

Lemma progress_color_monotone_witness :
  (49.5 <=? 79.5)%float = true /\
  (progress_color 79.5 = orange -> progress_color 49.5 <> red).
Proof.
  split; [reflexivity|].
  exact (proj2 (proj2 (progress_color_monotone 49.5 79.5 eq_refl))).
Defined.

(** X2.  The three bands of [getProgressColor] are exactly: green below
    50, orange from 50 up to but not including 80, red otherwise; a NaN,
    which is below nothing, is red. *)
Theorem progress_color_bands (x : float) :
  (progress_color x = green <-> (x <? 50)%float = true) /\
  (progress_color x = orange <->
   (x <? 50)%float = false /\ (x <? 80)%float = true) /\
  (progress_color x = red <-> (x <? 80)%float = false) /\
  (PrimFloat.is_nan x = true -> progress_color x = red).
Proof.
  split; [apply progress_color_green|].
  split; [apply progress_color_orange|].
  split; [apply progress_color_red|].
  intros H. apply progress_color_red. apply nan_not_lt. exact H.
Qed.

Lemma progress_color_bands_witness :
  progress_color 50 = orange /\ progress_color 80 = red /\
  progress_color nan = red.
Proof.
  split; [|split].
  - apply (proj1 (proj2 (progress_color_bands 50))). split; reflexivity.
  - apply (proj1 (proj2 (proj2 (progress_color_bands 80)))). reflexivity.
  - apply (proj2 (proj2 (proj2 (progress_color_bands nan)))). reflexivity.
Defined.

(** X3.  A GPU record in which [memory_used] or [memory_total] is absent
    (the other being a number, or absent too), and whose [id] and
    [temperature] are primitives, still gets its card: the bar value is
    NaN, and the bar is painted red. *)
Theorem absent_memory_field_gives_red_nan_bar
    (js : Intrinsics) (o : gmap string value) (x : float) :
  (o !! "memory_used" = Some (VNum x) /\ o !! "memory_total" = None) \/
  (o !! "memory_used" = None /\ o !! "memory_total" = Some (VNum x)) \/
  (o !! "memory_used" = None /\ o !! "memory_total" = None) ->
  primitive (field o "id") = true ->
  primitive (field o "temperature") = true ->
  exists r card,
    gpu_usage_percent js (VObj o) = Ok r /\
    PrimFloat.is_nan r = true /\
    render_gpu js (VObj o) = Ok card /\ gpu_progress card = r /\
    gpu_color js (VObj o) = Ok red.
Proof.
  intros H Hi Htemp.
  assert (exists r, gpu_usage_percent js (VObj o) = Ok r /\
                    PrimFloat.is_nan r = true) as (r & Hr & Hn).
  { unfold gpu_usage_percent, get.
    destruct H as [[-> ->]|[[-> ->]|[-> ->]]];
      cbn [default from_option id bind js_div ToNumber];
      eexists; (split; [reflexivity|]).
    - apply div_nan_r.
    - apply div_nan_l.
    - apply div_nan_l. }
  destruct (render_gpu_primitive js o Hi) as [card Hc]; try assumption.
  { unfold field. destruct H as [[-> _]|[[-> _]|[-> _]]]; reflexivity. }
  { unfold field. destruct H as [[_ ->]|[[_ ->]|[_ ->]]]; reflexivity. }
  destruct (render_gpu_inv js _ _ Hc) as (Hp & Hcol & _).
  assert (gpu_progress card = r) as <-.
  { rewrite Hr in Hp.
    apply (f_equal (fun q => match q with Ok y => y | Throw _ => nan end))
      in Hp. symmetry. exact Hp. }
  exists (gpu_progress card), card.
  split; [exact Hr|]. split; [exact Hn|]. split; [exact Hc|].
  split; [reflexivity|]. rewrite Hcol. f_equal.
  apply progress_color_red. apply nan_not_lt. exact Hn.
Qed.

Lemma absent_memory_field_gives_red_nan_bar_witness :
  primitive (field (list_to_map [("memory_used", VNum 1024)]) "id") = true /\
  primitive
    (field (list_to_map [("memory_used", VNum 1024)]) "temperature") = true /\
  exists r card,
    gpu_usage_percent sample_intrinsics (obj [("memory_used", VNum 1024)])
      = Ok r /\
    PrimFloat.is_nan r = true /\
    render_gpu sample_intrinsics (obj [("memory_used", VNum 1024)])
      = Ok card /\
    gpu_progress card = r /\
    gpu_color sample_intrinsics (obj [("memory_used", VNum 1024)]) = Ok red.
Proof.
  split; [reflexivity|]. split; [reflexivity|].
  apply (absent_memory_field_gives_red_nan_bar sample_intrinsics
           (list_to_map [("memory_used", VNum 1024)]) 1024).
  - left. split; reflexivity.
  - reflexivity.
  - reflexivity.
Defined.

(** X4.  A cpu, memory, disk or storage_summary metric that is missing
    from [system_resources] is painted green: its colour is that of the
    fallback value 0. *)
Theorem missing_metric_is_green (js : Intrinsics) (sr : gmap string value) :
  (missing sr "cpu" ["usage_percent"; "cores"] = true ->
   cpu_color js (VObj sr) = Ok green) /\
  (missing sr "memory" ["usage_percent"; "used"; "total"] = true ->
   memory_color js (VObj sr) = Ok green) /\
  (missing sr "disk" ["usage_percent"; "used"; "total"] = true ->
   disk_color js (VObj sr) = Ok green) /\
  (missing sr "storage_summary"
     ["used"; "total"; "usage_percent"; "available"] = true ->
   summary_color js (VObj sr) = Ok green).
Proof.
  assert (forall k fields,
            In "usage_percent" fields -> missing sr k fields = true ->
            (do p <- read (VObj sr) k "usage_percent";
             getProgressColor js (js_or p (VNum 0))) = Ok green) as H.
  { intros k fields Hin Hm.
    destruct (read_missing sr k fields "usage_percent" Hm Hin)
      as (v & -> & Hn).
    cbn [bind]. rewrite (js_or_nullish v _ Hn). reflexivity. }
  split; [|split; [|split]]; intros Hm.
  - apply (H "cpu" ["usage_percent"; "cores"]); [cbn; tauto|exact Hm].
  - apply (H "memory" ["usage_percent"; "used"; "total"]);
      [cbn; tauto|exact Hm].
  - apply (H "disk" ["usage_percent"; "used"; "total"]);
      [cbn; tauto|exact Hm].
  - apply (H "storage_summary" ["used"; "total"; "usage_percent"; "available"]);
      [cbn; tauto|exact Hm].
Qed.

Lemma missing_metric_is_green_witness :
  missing (<["cpu" := VNull]> ∅) "cpu" ["usage_percent"; "cores"] = true /\
  cpu_color sample_intrinsics (VObj (<["cpu" := VNull]> ∅)) = Ok green.
Proof.
  split; [reflexivity|].
  exact (proj1 (missing_metric_is_green sample_intrinsics
                  (<["cpu" := VNull]> ∅)) eq_refl).
Defined.

(* ================================================================== *)
(** * Runs of the client *)
(* ================================================================== *)

Section Runs.

Variable env : option string.

Lemma run_app (evs evs' : list Event) :
  forall s, run env (evs ++ evs') s = run env evs' (run env evs s).
Proof.
  induction evs as [|ev evs IH]; intros s; [reflexivity|].
  cbn [app run]. apply IH.
Qed.

(** A fulfilled request overwrites the whole state. *)
Lemma fetchData_fulfilled (d : value) (now : Z) (s : State) :
  fetchData env (Fulfilled d) now s
  = {| gpuData := d; loading := false; error := VNull;
       lastUpdated := now |}.
Proof. reflexivity. Qed.

End Runs.

(** X5.  Over any sequence of responses and refresh clicks, the stored
    snapshot is the payload of the most recent fulfilled request and
    [lastUpdated] is the instant it arrived; before the first success
    they are what they were at the start.  Failed requests and refresh
    clicks never touch them. *)
Theorem snapshot_is_the_last_success
    (env : option string) (evs : list Event) (s : State) :
  gpuData (run env evs s)
  = match last_success evs with Some (d, _) => d | None => gpuData s end /\
  lastUpdated (run env evs s)
  = match last_success evs with
    | Some (_, t) => t
    | None => lastUpdated s
    end.
Proof.
  revert s. induction evs as [|ev evs IH]; intros s.
  - split; reflexivity.
  - cbn [run]. destruct (IH (step env ev s)) as [Hd Ht]. rewrite Hd, Ht.
    destruct ev as [[d|] now|]; cbn [last_success step];
      destruct (last_success evs) as [[d' t']|]; split; reflexivity.
Qed.

(** X6.  What is on screen is decided by the last event alone.  After a
    failed request it is the error screen; after a fulfilled one the
    state is the one that request alone produces, whatever errors and
    refreshes came before; after a click on refresh it is the spinner,
    whatever was displayed. *)
Theorem screen_follows_the_last_event
    (js : Intrinsics) (env : option string) (evs : list Event) (s : State) :
  (forall now,
     App js (run env (evs ++ [Response_arrives Rejected now]) s)
     = Ok (ErrorScreen (VStr (fetch_error_message env)))) /\
  (forall d now s0,
     run env (evs ++ [Response_arrives (Fulfilled d) now]) s
     = fetchData env (Fulfilled d) now s0) /\
  App js (run env (evs ++ [Refresh_clicked]) s) = Ok Spinner.
Proof.
  split; [|split].
  - intros now. rewrite run_app. cbn [run step].
    apply App_error; [reflexivity|apply fetch_error_message_truthy].
  - intros d now s0. rewrite run_app. cbn [run step].
    rewrite !fetchData_fulfilled. reflexivity.
  - rewrite run_app. reflexivity.
Qed.

(* ================================================================== *)
(** * Arrays and their cards *)
(* ================================================================== *)

Section Traverse.

Context {A B : Type}.
Variable f : A -> result B.

Lemma exn_unique (e : exn) : e = TypeError.
Proof. destruct e. reflexivity. Qed.

Lemma traverse_ok (l : list A) :
  forall ys, traverse f l = Ok ys -> Forall2 (fun x y => f x = Ok y) l ys.
Proof.
  induction l as [|a l IH]; intros ys H; cbn [traverse] in H.
  - injection H as <-. constructor.
  - destruct (f a) as [b|] eqn:Ea; cbn [bind] in H; [|discriminate].
    destruct (traverse f l) as [bs|] eqn:El; cbn [bind] in H; [|discriminate].
    injection H as <-. constructor; [exact Ea|apply IH; reflexivity].
Qed.

Lemma traverse_all (l : list A) :
  Forall (fun x => exists y, f x = Ok y) l ->
  exists ys, traverse f l = Ok ys.
Proof.
  induction 1 as [|a l [b Hb] _ [bs Hbs]]; cbn [traverse].
  - eauto.
  - rewrite Hb; cbn [bind]. rewrite Hbs; cbn [bind]. eauto.
Qed.

Lemma traverse_throw (l : list A) (x : A) (e : exn) :
  In x l -> f x = Throw e -> traverse f l = Throw TypeError.
Proof.
  induction l as [|a l IH]; intros Hin Hx; [destruct Hin|].
  cbn [traverse]. destruct Hin as [->|Hin].
  - rewrite Hx. cbn [bind]. f_equal. apply exn_unique.
  - destruct (f a) as [b|e']; cbn [bind]; [|f_equal; apply exn_unique].
    rewrite (IH Hin Hx). reflexivity.
Qed.

End Traverse.

Lemma Forall2_same_length {A B} (R : A -> B -> Prop) l k :
  Forall2 R l k -> length k = length l.
Proof. induction 1; cbn; congruence. Qed.

(** [v.map(f) = Ok ys] only for an array, element by element. *)
Lemma array_map_ok {B} (f : value -> result B) (v : value) ys :
  array_map v f = Ok ys ->
  exists xs, v = VArr xs /\ Forall2 (fun x y => f x = Ok y) xs ys.
Proof.
  destruct v; cbn [array_map]; try discriminate.
  intros H. eexists. split; [reflexivity|]. apply traverse_ok. exact H.
Qed.

(** X7.  Whenever the dashboard is rendered, [gpus] was an array and the
    GPU cards are its elements' cards, one per element and in the same
    order. *)
Theorem one_gpu_card_per_gpu
    (js : Intrinsics) (s : State) (t : Z) (sys : SystemSection)
    (sto : StorageSection) (g : list GpuCard) (u : UsersCard) :
  App js s = Ok (Dashboard t sys sto g u) ->
  exists xs,
    get (gpuData s) "gpus" = Ok (VArr xs) /\
    Forall2 (fun x card => render_gpu js x = Ok card) xs g /\
    length g = length xs.
Proof.
  intros HA.
  apply App_dashboard_inv in HA
    as (_ & _ & _ & gv & uv & srv & H1 & _ & _ & _ & _ & H6 & _).
  apply array_map_ok in H6 as (xs & -> & HF).
  exists xs. split; [exact H1|]. split; [exact HF|].
  apply (Forall2_same_length _ _ _ HF).
Qed.

Lemma one_gpu_card_per_gpu_witness :
  App sample_intrinsics after_first_poll
    = Ok (Dashboard 1000 sample_system (StorageHidden VUndefined)
            [sample_gpu_card] (UsersTable [sample_user_row])) /\
  exists xs,
    get (gpuData after_first_poll) "gpus" = Ok (VArr xs) /\
    Forall2 (fun x card => render_gpu sample_intrinsics x = Ok card)
      xs [sample_gpu_card] /\
    length [sample_gpu_card] = length xs.
Proof.
  assert (App sample_intrinsics after_first_poll
          = Ok (Dashboard 1000 sample_system (StorageHidden VUndefined)
                  [sample_gpu_card] (UsersTable [sample_user_row]))) as HA
    by (vm_compute; reflexivity).
  split; [exact HA|].
  exact (one_gpu_card_per_gpu sample_intrinsics after_first_poll 1000
           sample_system (StorageHidden VUndefined) [sample_gpu_card]
           (UsersTable [sample_user_row]) HA).
Defined.

(** X8.  Past the spinner and the error screen, [App] throws a TypeError
    instead of rendering whenever [gpus] is not an array (absent, null, an
    object, ...) or holds a null or undefined element. *)
Theorem App_throws_without_gpu_array (js : Intrinsics) (s : State) :
  loading s = false -> truthy (error s) = false ->
  (forall xs, get (gpuData s) "gpus" <> Ok (VArr xs)) \/
  (exists xs x, get (gpuData s) "gpus" = Ok (VArr xs) /\
                In x xs /\ nullish x = true) ->
  App js s = Throw TypeError.
Proof.
  intros Hl He H. unfold App. rewrite Hl, He.
  destruct (get (gpuData s) "gpus") as [gv|[]] eqn:H1;
    cbn [bind]; [|reflexivity].
  destruct (get (gpuData s) "user_resources") as [uv|[]];
    cbn [bind]; [|reflexivity].
  destruct (get (gpuData s) "system_resources") as [srv|[]];
    cbn [bind]; [|reflexivity].
  destruct (render_system js srv) as [sys|[]]; cbn [bind]; [|reflexivity].
  destruct (render_storage js srv) as [sto|[]]; cbn [bind]; [|reflexivity].
  assert (array_map gv (render_gpu js) = Throw TypeError) as ->;
    [|reflexivity].
  destruct H as [H|(xs & x & [= ->] & Hin & Hn)].
  - destruct gv; try reflexivity. exfalso. apply (H xs). reflexivity.
  - cbn [array_map]. apply (traverse_throw _ _ x TypeError Hin).
    destruct x; try discriminate; reflexivity.
Qed.

Lemma App_throws_without_gpu_array_witness :
  (forall xs,
     get (gpuData (fetchData None
                     (Fulfilled (obj [("user_resources", VArr []);
                                      ("system_resources", VObj ∅)]))
                     1000 (initial_state 0))) "gpus" <> Ok (VArr xs)) /\
  App sample_intrinsics
    (fetchData None
       (Fulfilled (obj [("user_resources", VArr []);
                        ("system_resources", VObj ∅)]))
       1000 (initial_state 0))
  = Throw TypeError.
Proof.
  assert (forall xs,
     get (gpuData (fetchData None
                     (Fulfilled (obj [("user_resources", VArr []);
                                      ("system_resources", VObj ∅)]))
                     1000 (initial_state 0))) "gpus" <> Ok (VArr xs)) as H
    by (intros xs; vm_compute; discriminate).
  split; [exact H|].
  apply App_throws_without_gpu_array; [reflexivity|reflexivity|].
  left. exact H.
Defined.

(* ================================================================== *)
(** * The users table, row by row *)
(* ================================================================== *)

Section Rows.

Variable js : Intrinsics.

Lemma nan_not_gt x c : PrimFloat.is_nan x = true -> Num.gt x c = false.
Proof.
  intros H. unfold Num.gt.
  rewrite FloatAxioms.ltb_spec, (is_nan_shape x H).
  destruct (Prim2SF c); reflexivity.
Qed.

Lemma lt_not_nan x c : (x <? c)%float = true -> PrimFloat.is_nan x = false.
Proof.
  intros H. destruct (PrimFloat.is_nan x) eqn:E; [|reflexivity].
  rewrite (nan_not_lt x c E) in H. discriminate.
Qed.

(** [Math.min(x, 100)] is never above 100, and is [x] below 100. *)
Lemma min_capped x : Num.gt (Num.min x 100) 100 = false.
Proof.
  unfold Num.min. destruct (PrimFloat.is_nan x) eqn:En.
  - apply (nan_not_gt x 100 En).
  - destruct (x <? 100)%float eqn:El.
    + unfold Num.gt. apply lt_not_gt. exact El.
    + reflexivity.
Qed.

Lemma min_below x : (x <? 100)%float = true -> Num.min x 100 = x.
Proof.
  intros H. unfold Num.min. rewrite (lt_not_nan x 100 H), H. reflexivity.
Qed.

(** What a rendered row says about the record it came from. *)
Lemma render_user_inv (u : value) (row : UserRow) :
  render_user js u = Ok row ->
  exists cpu_n mem_n sessions,
    get u "username" = Ok (row_username row) /\
    get u "cpu_usage" = Ok (row_cpu_usage row) /\
    ToNumber js (row_cpu_usage row) = Ok cpu_n /\
    row_cpu_progress row = Num.min cpu_n 100 /\
    get u "memory_usage" = Ok (row_memory_usage row) /\
    ToNumber js (row_memory_usage row) = Ok mem_n /\
    row_memory_progress row = Num.min mem_n 100 /\
    gpu_memory_cell js u = Ok (row_gpu_memory row) /\
    storage_cell js u = Ok (row_storage row) /\
    get u "sessions" = Ok sessions /\
    array_map sessions (render_session js) = Ok (row_sessions row).
Proof.
  unfold render_user. intros H.
  destruct (get u "username") as [name|] eqn:E1; cbn [bind] in H;
    [|discriminate].
  destruct (get u "cpu_usage") as [cpu|] eqn:E2; cbn [bind] in H;
    [|discriminate].
  destruct (ToNumber js cpu) as [cpu_n|] eqn:E3; cbn [bind] in H;
    [|discriminate].
  unfold user_cpu_color, getProgressColor in H.
  rewrite E2 in H. cbn [bind] in H. rewrite E3 in H. cbn [bind] in H.
  destruct (get u "memory_usage") as [mem|] eqn:E4; cbn [bind] in H;
    [|discriminate].
  destruct (ToNumber js mem) as [mem_n|] eqn:E5; cbn [bind] in H;
    [|discriminate].
  unfold user_memory_color, getProgressColor in H.
  rewrite E4 in H. cbn [bind] in H. rewrite E5 in H. cbn [bind] in H.
  destruct (gpu_memory_cell js u) as [g|] eqn:E6; cbn [bind] in H;
    [|discriminate].
  destruct (storage_cell js u) as [st|] eqn:E7; cbn [bind] in H;
    [|discriminate].
  destruct (get u "sessions") as [sessions|] eqn:E8; cbn [bind] in H;
    [|discriminate].
  destruct (array_map sessions (render_session js)) as [lines|] eqn:E9;
    cbn [bind] in H; [|discriminate].
  injection H as <-. exists cpu_n, mem_n, sessions. cbn.
  repeat split; assumption.
Qed.

End Rows.

(** X9.  In every rendered row of the users table the CPU and memory
    bars are capped at 100 ([Math.min(usage, 100)]); they are not floored:
    a numeric usage below 100, negative ones included, is the bar value
    as it stands. *)
Theorem usage_bars_are_capped_at_100
    (js : Intrinsics) (u : value) (row : UserRow) :
  render_user js u = Ok row ->
  Num.gt (row_cpu_progress row) 100 = false /\
  Num.gt (row_memory_progress row) 100 = false /\
  (forall x, row_cpu_usage row = VNum x -> (x <? 100)%float = true ->
             row_cpu_progress row = x) /\
  (forall x, row_memory_usage row = VNum x -> (x <? 100)%float = true ->
             row_memory_progress row = x).
Proof.
  intros H.
  apply render_user_inv in H
    as (cpu_n & mem_n & sessions & _ & _ & Hc & -> & _ & Hm & -> & _).
  split; [apply min_capped|]. split; [apply min_capped|].
  split; intros x Hx Hlt.
  - rewrite Hx in Hc. cbn in Hc. injection Hc as <-. apply min_below, Hlt.
  - rewrite Hx in Hm. cbn in Hm. injection Hm as <-. apply min_below, Hlt.
Qed.

Lemma usage_bars_are_capped_at_100_witness :
  render_user sample_intrinsics alice = Ok sample_user_row /\
  Num.gt (row_cpu_progress sample_user_row) 100 = false.
Proof.
  assert (render_user sample_intrinsics alice = Ok sample_user_row) as H
    by (vm_compute; reflexivity).
  split; [exact H|].
  exact (proj1 (usage_bars_are_capped_at_100 sample_intrinsics alice
                  sample_user_row H)).
Defined.

(** X10.  A [storage_usage] that arrives as a numeric string is treated
    unevenly by the Storage cell: above 1 the cell calls [toFixed] on the
    string itself and throws a TypeError; from just above 0 up to 1 it
    multiplies first and shows the MB figure.  The GPU Memory cell divides
    first and therefore accepts a numeric string. *)
Theorem numeric_string_storage_usage
    (js : Intrinsics) (u : gmap string value) (s : string) :
  u !! "storage_usage" = Some (VStr s) ->
  ((1 <? StringToNumber js s)%float = true ->
   storage_cell js (VObj u) = Throw TypeError) /\
  ((0 <? StringToNumber js s)%float = true ->
   (StringToNumber js s <=? 1)%float = true ->
   storage_cell js (VObj u)
   = Ok (toFixed js (StringToNumber js s * 1024) 0 +:+ "MB")) /\
  (forall g, u !! "gpu_memory_usage" = Some (VStr g) ->
     (0 <? StringToNumber js g)%float = true ->
     gpu_memory_cell js (VObj u)
     = Ok (toFixed js (StringToNumber js g / 1024) 1 +:+ "G")).
Proof.
  intros Hu. split; [|split].
  - intros Hgt. unfold storage_cell, get. rewrite Hu.
    cbn [default from_option id bind]. unfold js_gt; cbn [ToNumber bind].
    rewrite (gt_one_gt_zero _ Hgt). unfold Num.gt. rewrite Hgt. reflexivity.
  - intros Hpos Hle. unfold storage_cell, get. rewrite Hu.
    cbn [default from_option id bind].
    unfold js_gt, js_mul; cbn [ToNumber bind].
    unfold Num.gt at 1. rewrite Hpos. rewrite (le_not_gt _ _ Hle).
    reflexivity.
  - intros g Hg Hpos. unfold gpu_memory_cell, get. rewrite Hg.
    cbn [default from_option id bind].
    unfold js_gt, js_div; cbn [ToNumber bind].
    unfold Num.gt. rewrite Hpos. reflexivity.
Qed.

Lemma numeric_string_storage_usage_witness :
  (1 <? StringToNumber digit_intrinsics "5")%float = true /\
  storage_cell digit_intrinsics (obj [("storage_usage", VStr "5")])
  = Throw TypeError /\
  storage_cell digit_intrinsics (obj [("storage_usage", VStr "1")])
  = Ok "1024MB".
Proof.
  split; [reflexivity|]. split.
  - exact (proj1 (numeric_string_storage_usage digit_intrinsics
             (list_to_map [("storage_usage", VStr "5")]) "5" eq_refl)
             eq_refl).
  - exact (proj1 (proj2 (numeric_string_storage_usage digit_intrinsics
             (list_to_map [("storage_usage", VStr "1")]) "1" eq_refl))
             eq_refl eq_refl).
Defined.

(* ================================================================== *)
(** * Partition titles and session lines *)
(* ================================================================== *)

Section Titles.

Lemma append_cons x (a b : string) : String x a +:+ b = String x (a +:+ b).
Proof. reflexivity. Qed.

Lemma append_assoc_cons (a : string) c r :
  (a +:+ String c "") +:+ r = a +:+ String c r.
Proof.
  induction a as [|x a IH]; [reflexivity|].
  rewrite !append_cons. f_equal. exact IH.
Qed.

Lemma has_slash_app a b : has_slash (a +:+ b) = has_slash a || has_slash b.
Proof.
  induction a as [|x a IH]; [reflexivity|].
  rewrite append_cons. cbn [has_slash]. rewrite IH. apply orb_assoc.
Qed.

(** The result never contains a slash. *)
Lemma after_last_slash_clean s :
  forall acc, has_slash acc = false ->
              has_slash (after_last_slash s acc) = false.
Proof.
  induction s as [|c r IH]; intros acc Hacc; cbn [after_last_slash].
  - exact Hacc.
  - destruct (Ascii.eqb c "/") eqn:E.
    + apply IH. reflexivity.
    + apply IH. rewrite has_slash_app, Hacc. cbn. rewrite E. reflexivity.
Qed.

(** A string without a slash is kept whole. *)
Lemma after_last_slash_plain name :
  has_slash name = false ->
  forall acc, after_last_slash name acc = acc +:+ name.
Proof.
  induction name as [|c r IH]; intros H acc; cbn [after_last_slash].
  - induction acc as [|x a IHa]; [reflexivity|].
    rewrite append_cons. f_equal. exact IHa.
  - cbn in H. apply orb_false_iff in H as [Hc Hr]. rewrite Hc.
    rewrite (IH Hr). apply append_assoc_cons.
Qed.

(** Everything up to and including a slash is dropped. *)
Lemma after_last_slash_prefix dir name :
  forall acc,
    after_last_slash (dir +:+ String "/" name) acc = after_last_slash name "".
Proof.
  induction dir as [|c r IH]; intros acc.
  - reflexivity.
  - rewrite append_cons. cbn [after_last_slash].
    destruct (Ascii.eqb c "/"); apply IH.
Qed.

End Titles.

(** X11.  The title of a partition card, [mount_point.split('/').pop()],
    is the last path segment: for a mount point [dir/name] with no slash
    in [name] it is [name], a mount point without any slash is its own
    title, the title never contains a slash, and a [mount_point] that is
    not a string throws. *)
Theorem partition_title_is_the_last_segment (dir name : string) :
  has_slash name = false ->
  split_pop (VStr (dir +:+ "/" +:+ name)) = Ok (VStr name) /\
  split_pop (VStr name) = Ok (VStr name) /\
  (forall p, exists t, split_pop (VStr p) = Ok (VStr t) /\
                       has_slash t = false) /\
  (forall v, (forall p, v <> VStr p) -> split_pop v = Throw TypeError).
Proof.
  intros Hn. split; [|split; [|split]].
  - cbn [split_pop]. f_equal. f_equal.
    change ("/" +:+ name) with (String "/" name).
    rewrite after_last_slash_prefix. apply (after_last_slash_plain name Hn "").
  - cbn [split_pop]. f_equal. f_equal.
    apply (after_last_slash_plain name Hn "").
  - intros p. eexists. split; [reflexivity|].
    apply after_last_slash_clean. reflexivity.
  - intros v Hv. destruct v; try reflexivity. exfalso. apply (Hv s).
    reflexivity.
Qed.

Lemma partition_title_is_the_last_segment_witness :
  has_slash "data1" = false /\
  split_pop (VStr "/mnt/storage/data1") = Ok (VStr "data1").
Proof.
  split; [reflexivity|].
  exact (proj1 (partition_title_is_the_last_segment "/mnt/storage" "data1"
                  eq_refl)).
Defined.

(** X12.  A session line shows its origin in parentheses unless [from]
    is exactly the string 'N/A', the only case in which the origin is
    left empty; a session without any [from] is shown with the text
    "(undefined)". *)
Theorem session_origin_is_dropped_only_for_NA
    (js : Intrinsics) (o : gmap string value) :
  (o !! "from" = Some (VStr "N/A") ->
   exists line, render_session js (VObj o) = Ok line /\
                session_origin line = "") /\
  (o !! "from" = None ->
   exists line, render_session js (VObj o) = Ok line /\
                session_origin line = "(undefined)") /\
  (forall h, o !! "from" = Some (VStr h) -> h <> "N/A" ->
   exists line, render_session js (VObj o) = Ok line /\
                session_origin line = "(" +:+ h +:+ ")") /\
  (forall line, render_session js (VObj o) = Ok line ->
                session_origin line = "" ->
                o !! "from" = Some (VStr "N/A")).
Proof.
  unfold render_session, get. split; [|split; [|split]].
  - intros ->. cbn. eauto.
  - intros ->. cbn. eauto.
  - intros h -> Hh. cbn [default from_option id bind differs_from].
    destruct (String.eqb_spec h "N/A") as [->|_]; [congruence|].
    cbn. eauto.
  - intros line.
    destruct (o !! "from") as [v|]; cbn [default from_option id bind].
    + destruct (differs_from v "N/A") eqn:Ed.
      * destruct (ToString js v) as [str|]; cbn [bind]; [|discriminate].
        intros [= <-]. cbn. discriminate.
      * intros _ _. destruct v; try discriminate.
        cbn in Ed. apply negb_false_iff in Ed.
        apply String.eqb_eq in Ed. subst. reflexivity.
    + cbn. intros [= <-]. cbn. discriminate.
Qed.

Lemma session_origin_is_dropped_only_for_NA_witness :
  exists line,
    render_session sample_intrinsics (obj [("terminal", VStr "tty1")])
      = Ok line /\
    session_origin line = "(undefined)".
Proof.
  exact (proj1 (proj2 (session_origin_is_dropped_only_for_NA
                         sample_intrinsics
                         (list_to_map [("terminal", VStr "tty1")])))
           eq_refl).
Defined.

(* ================================================================== *)
(** * The users card and the storage section *)
(* ================================================================== *)

Section Sections.

Variable js : Intrinsics.

Lemma nonempty_length {A} (l : list A) : l <> [] -> (0 < length l)%nat.
Proof. destruct l; [congruence|cbn; lia]. Qed.

(** The test [a.length > 0] on a non-empty array. *)
Lemma length_test (xs : list value) :
  xs <> [] -> (Z.of_nat (length xs) < 2 ^ 63)%Z ->
  (do len <- get (VArr xs) "length"; js_gt js len 0) = Ok true.
Proof.
  intros Hne Hb. cbn [get String.eqb Ascii.eqb Bool.eqb bind js_gt ToNumber].
  rewrite (of_nat_positive _ (nonempty_length xs Hne) Hb). reflexivity.
Qed.

Lemma render_users_nonempty (us : list value) :
  us <> [] -> (Z.of_nat (length us) < 2 ^ 63)%Z ->
  render_users js (VArr us)
  = do rows <- traverse (render_user js) us; Ok (UsersTable rows).
Proof.
  intros Hne Hb. unfold render_users. cbn [truthy].
  pose proof (length_test us Hne Hb) as H.
  destruct (get (VArr us) "length") as [len|]; cbn [bind] in H |- *;
    [|discriminate].
  rewrite H. reflexivity.
Qed.

Lemma render_storage_nonempty (sr : gmap string value) (ds : list value) :
  sr !! "storage_disks" = Some (VArr ds) ->
  ds <> [] -> (Z.of_nat (length ds) < 2 ^ 63)%Z ->
  render_storage js (VObj sr)
  = do summary <- render_summary js (VObj sr);
    do parts <- traverse (render_partition js) ds;
    Ok (StorageShown summary parts).
Proof.
  intros Hsd Hne Hb. unfold render_storage, get at 1. rewrite Hsd.
  cbn [default from_option id bind truthy].
  pose proof (length_test ds Hne Hb) as H.
  destruct (get (VArr ds) "length") as [len|]; cbn [bind] in H |- *;
    [|discriminate].
  rewrite H. reflexivity.
Qed.

(** A user record whose [sessions] is not an array cannot be rendered. *)
Lemma render_user_needs_sessions (x : value) :
  (forall l, get x "sessions" <> Ok (VArr l)) ->
  render_user js x = Throw TypeError.
Proof.
  intros H. unfold render_user.
  destruct (get x "username") as [?|[]]; cbn [bind]; [|reflexivity].
  destruct (get x "cpu_usage") as [cpu|[]]; cbn [bind]; [|reflexivity].
  destruct (ToNumber js cpu) as [?|[]]; cbn [bind]; [|reflexivity].
  destruct (user_cpu_color js x) as [?|[]]; cbn [bind]; [|reflexivity].
  destruct (get x "memory_usage") as [mem|[]]; cbn [bind]; [|reflexivity].
  destruct (ToNumber js mem) as [?|[]]; cbn [bind]; [|reflexivity].
  destruct (user_memory_color js x) as [?|[]]; cbn [bind]; [|reflexivity].
  destruct (gpu_memory_cell js x) as [?|[]]; cbn [bind]; [|reflexivity].
  destruct (storage_cell js x) as [?|[]]; cbn [bind]; [|reflexivity].
  destruct (get x "sessions") as [ss|[]] eqn:E; cbn [bind]; [|reflexivity].
  destruct ss; try reflexivity. exfalso. apply (H xs). reflexivity.
Qed.

(** A partition whose [mount_point] is not a string cannot be rendered. *)
Lemma render_partition_needs_mount_point (x : value) :
  (forall p, get x "mount_point" <> Ok (VStr p)) ->
  render_partition js x = Throw TypeError.
Proof.
  intros H. unfold render_partition.
  destruct (get x "mount_point") as [mp|[]] eqn:E; cbn [bind]; [|reflexivity].
  destruct mp; try reflexivity. exfalso. apply (H s). reflexivity.
Qed.

(** A field of an entry of [system_resources] can always be read. *)
Lemma read_total (sr : gmap string value) k f :
  exists v, read (VObj sr) k f = Ok v.
Proof.
  unfold read, get_opt, get. cbn [bind].
  destruct (default VUndefined (sr !! k)); cbn; eauto.
Qed.

Lemma read_object (sr c : gmap string value) k f :
  sr !! k = Some (VObj c) ->
  read (VObj sr) k f = Ok (default VUndefined (c !! f)).
Proof. intros H. unfold read, get. rewrite H. reflexivity. Qed.

(** The [usage_percent] read from an entry with a primitive one. *)
Lemma read_primitive_usage (sr : gmap string value) k :
  primitive_usage sr k = true ->
  exists v, read (VObj sr) k "usage_percent" = Ok v /\ primitive v = true.
Proof.
  unfold primitive_usage, field, read, get_opt, get. cbn [bind].
  destruct (default VUndefined (sr !! k)); cbn; eauto.
Qed.

Lemma js_or_primitive (v : value) (x : float) :
  primitive v = true -> primitive (js_or v (VNum x)) = true.
Proof. unfold js_or. destruct (truthy v); auto. Qed.

(** The colour of an entry's bar, when its [usage_percent] is a
    primitive. *)
Lemma usage_color_primitive (sr : gmap string value) k :
  primitive_usage sr k = true ->
  exists colour,
    (do p <- read (VObj sr) k "usage_percent";
     getProgressColor js (js_or p (VNum 0))) = Ok colour.
Proof.
  intros H. destruct (read_primitive_usage sr k H) as (v & -> & Hv).
  cbn [bind]. apply getProgressColor_primitive, js_or_primitive, Hv.
Qed.

Lemma render_summary_ok (sr : gmap string value) :
  primitive_usage sr "storage_summary" = true ->
  exists summary, render_summary js (VObj sr) = Ok summary.
Proof.
  intros H. unfold render_summary, summary_color.
  destruct (usage_color_primitive sr "storage_summary" H) as [colour ->].
  destruct (read_total sr "storage_summary" "used") as [? ->],
    (read_total sr "storage_summary" "total") as [? ->],
    (read_total sr "storage_summary" "usage_percent") as [? ->],
    (read_total sr "storage_summary" "available") as [? ->].
  cbn [bind]. eauto.
Qed.

Lemma render_disk_ok (sr : gmap string value) :
  primitive_usage sr "disk" = true ->
  exists card, render_disk js (VObj sr) = Ok card.
Proof.
  intros H. unfold render_disk, disk_color.
  destruct (usage_color_primitive sr "disk" H) as [colour ->].
  destruct (read_total sr "disk" "usage_percent") as [? ->],
    (read_total sr "disk" "used") as [? ->],
    (read_total sr "disk" "total") as [? ->].
  cbn [bind]. eauto.
Qed.

End Sections.

(** X13.  The users card follows [user_resources]: absent, null or an
    empty array gives the text "No active users at the moment"; a
    non-empty array gives the table with one row per user record, in the
    array's order, provided every record renders. *)
Theorem users_table_follows_the_array (js : Intrinsics) (us : list value) :
  (forall v, nullish v = true \/ v = VArr [] ->
             render_users js v = Ok NoActiveUsers) /\
  (us <> [] -> (Z.of_nat (length us) < 2 ^ 63)%Z ->
   forall card, render_users js (VArr us) = Ok card ->
     exists rows, card = UsersTable rows /\
       Forall2 (fun x r => render_user js x = Ok r) us rows /\
       length rows = length us) /\
  (us <> [] -> (Z.of_nat (length us) < 2 ^ 63)%Z ->
   Forall (fun x => exists r, render_user js x = Ok r) us ->
   exists rows, render_users js (VArr us) = Ok (UsersTable rows)).
Proof.
  split; [|split].
  - intros v [Hn| ->]; [|reflexivity].
    destruct v; try discriminate; reflexivity.
  - intros Hne Hb card. rewrite (render_users_nonempty js us Hne Hb).
    destruct (traverse (render_user js) us) as [rows|] eqn:E;
      cbn [bind]; [|discriminate].
    intros [= <-]. exists rows. split; [reflexivity|].
    pose proof (traverse_ok _ _ _ E) as HF. split; [exact HF|].
    apply (Forall2_same_length _ _ _ HF).
  - intros Hne Hb Hall. rewrite (render_users_nonempty js us Hne Hb).
    destruct (traverse_all _ _ Hall) as [rows ->]. cbn [bind]. eauto.
Qed.

Lemma users_table_follows_the_array_witness :
  [alice] <> [] /\ (Z.of_nat (length [alice]) < 2 ^ 63)%Z /\
  exists rows, render_users sample_intrinsics (VArr [alice])
               = Ok (UsersTable rows).
Proof.
  assert ([alice] <> []) as Hne by discriminate.
  assert (Z.of_nat (length [alice]) < 2 ^ 63)%Z as Hb by reflexivity.
  split; [exact Hne|]. split; [exact Hb|].
  apply (proj2 (proj2 (users_table_follows_the_array sample_intrinsics
                         [alice])) Hne Hb).
  constructor; [|constructor].
  exists sample_user_row. vm_compute. reflexivity.
Defined.

(** X14.  [sessions] is mandatory: one user record whose [sessions] is
    not an array (say, absent) makes the users table throw, and with it
    the whole of [App] once past the spinner and the error screen. *)
Theorem user_without_sessions_breaks_the_page
    (js : Intrinsics) (s : State) (us : list value) (x : value) :
  loading s = false -> truthy (error s) = false ->
  get (gpuData s) "user_resources" = Ok (VArr us) ->
  In x us -> (Z.of_nat (length us) < 2 ^ 63)%Z ->
  (forall l, get x "sessions" <> Ok (VArr l)) ->
  render_users js (VArr us) = Throw TypeError /\
  App js s = Throw TypeError.
Proof.
  intros Hl He Hu Hin Hb Hs.
  assert (render_users js (VArr us) = Throw TypeError) as HU.
  { rewrite render_users_nonempty;
      [|intros ->; destruct Hin|exact Hb].
    rewrite (traverse_throw _ _ x TypeError Hin
               (render_user_needs_sessions js x Hs)).
    reflexivity. }
  split; [exact HU|].
  unfold App. rewrite Hl, He, Hu.
  destruct (get (gpuData s) "gpus") as [gv|[]]; cbn [bind]; [|reflexivity].
  destruct (get (gpuData s) "system_resources") as [srv|[]];
    cbn [bind]; [|reflexivity].
  destruct (render_system js srv) as [?|[]]; cbn [bind]; [|reflexivity].
  destruct (render_storage js srv) as [?|[]]; cbn [bind]; [|reflexivity].
  destruct (array_map gv (render_gpu js)) as [?|[]];
    cbn [bind]; [|reflexivity].
  rewrite HU. reflexivity.
Qed.

Lemma user_without_sessions_breaks_the_page_witness :
  render_users sample_intrinsics (VArr [obj [("username", VStr "bob")]])
  = Throw TypeError.
Proof.
  refine (proj1 (user_without_sessions_breaks_the_page sample_intrinsics
    (fetchData None
       (Fulfilled (obj [("gpus", VArr []);
                        ("user_resources",
                         VArr [obj [("username", VStr "bob")]]);
                        ("system_resources", VObj ∅)]))
       1000 (initial_state 0))
    [obj [("username", VStr "bob")]] (obj [("username", VStr "bob")])
    eq_refl eq_refl eq_refl (or_introl eq_refl) eq_refl _)).
  intros l. vm_compute. discriminate.
Defined.

(** X15.  The storage section follows [storage_disks]: absent, null or an
    empty array hides it; a non-empty array shows the summary and one
    partition card per element, in the array's order; and one partition
    whose [mount_point] is not a string makes the section throw. *)
Theorem storage_section_follows_the_array
    (js : Intrinsics) (sr : gmap string value) (ds : list value) :
  (sr !! "storage_disks" = None ->
   render_storage js (VObj sr) = Ok (StorageHidden VUndefined)) /\
  (sr !! "storage_disks" = Some VNull ->
   render_storage js (VObj sr) = Ok (StorageHidden VNull)) /\
  (sr !! "storage_disks" = Some (VArr []) ->
   render_storage js (VObj sr) = Ok (StorageHidden (VBool false))) /\
  (sr !! "storage_disks" = Some (VArr ds) -> ds <> [] ->
   (Z.of_nat (length ds) < 2 ^ 63)%Z ->
   (forall sec, render_storage js (VObj sr) = Ok sec ->
      exists summary parts,
        sec = StorageShown summary parts /\
        render_summary js (VObj sr) = Ok summary /\
        Forall2 (fun x p => render_partition js x = Ok p) ds parts /\
        length parts = length ds) /\
   (forall x, In x ds -> (forall p, get x "mount_point" <> Ok (VStr p)) ->
      render_storage js (VObj sr) = Throw TypeError)).
Proof.
  split; [|split; [|split]].
  - intros H. unfold render_storage, get. rewrite H. reflexivity.
  - intros H. unfold render_storage, get. rewrite H. reflexivity.
  - intros H. unfold render_storage, get at 1. rewrite H. reflexivity.
  - intros Hsd Hne Hb.
    rewrite (render_storage_nonempty js sr ds Hsd Hne Hb).
    destruct (render_summary js (VObj sr)) as [summary|[]] eqn:Hsum;
      cbn [bind]; [|split; [discriminate|reflexivity]].
    split.
    + intros sec.
      destruct (traverse (render_partition js) ds) as [parts|] eqn:E;
        cbn [bind]; [|discriminate].
      intros [= <-]. exists summary, parts. split; [reflexivity|].
      split; [reflexivity|].
      pose proof (traverse_ok _ _ _ E) as HF. split; [exact HF|].
      apply (Forall2_same_length _ _ _ HF).
    + intros x Hin Hx.
      rewrite (traverse_throw _ _ x TypeError Hin
                 (render_partition_needs_mount_point js x Hx)).
      reflexivity.
Qed.

Lemma storage_section_follows_the_array_witness :
  render_storage sample_intrinsics
    (VObj (list_to_map
       [("storage_disks",
         VArr [obj [("mount_point", VStr "/mnt/data1");
                    ("used", VStr "1T")]])]))
  = Ok (StorageShown summary_fallback
          [{| partition_title := VStr "data1";
              partition_used := VStr "1T";
              partition_total := VUndefined;
              partition_progress := VUndefined;
              partition_available := VUndefined |}]) /\
  exists summary parts,
    StorageShown summary_fallback
      [{| partition_title := VStr "data1";
          partition_used := VStr "1T";
          partition_total := VUndefined;
          partition_progress := VUndefined;
          partition_available := VUndefined |}]
    = StorageShown summary parts /\
    render_summary sample_intrinsics
      (VObj (list_to_map
         [("storage_disks",
           VArr [obj [("mount_point", VStr "/mnt/data1");
                      ("used", VStr "1T")]])]))
    = Ok summary /\
    Forall2 (fun x p => render_partition sample_intrinsics x = Ok p)
      [obj [("mount_point", VStr "/mnt/data1"); ("used", VStr "1T")]]
      parts /\
    length parts
    = length [obj [("mount_point", VStr "/mnt/data1"); ("used", VStr "1T")]].
Proof.
  assert (render_storage sample_intrinsics
    (VObj (list_to_map
       [("storage_disks",
         VArr [obj [("mount_point", VStr "/mnt/data1");
                    ("used", VStr "1T")]])]))
  = Ok (StorageShown summary_fallback
          [{| partition_title := VStr "data1";
              partition_used := VStr "1T";
              partition_total := VUndefined;
              partition_progress := VUndefined;
              partition_available := VUndefined |}])) as H
    by (vm_compute; reflexivity).
  split; [exact H|].
  assert ((list_to_map
             [("storage_disks",
               VArr [obj [("mount_point", VStr "/mnt/data1");
                          ("used", VStr "1T")]])] : gmap string value)
          !! "storage_disks"
          = Some (VArr [obj [("mount_point", VStr "/mnt/data1");
                             ("used", VStr "1T")]])) as Hsd
    by reflexivity.
  assert ([obj [("mount_point", VStr "/mnt/data1"); ("used", VStr "1T")]]
          <> []) as Hne by discriminate.
  assert (Z.of_nat (length [obj [("mount_point", VStr "/mnt/data1");
                                 ("used", VStr "1T")]]) < 2 ^ 63)%Z as Hb
    by reflexivity.
  exact (proj1 (proj2 (proj2 (proj2
    (storage_section_follows_the_array sample_intrinsics _ _)))
    Hsd Hne Hb) _ H).
Defined.

(* ================================================================== *)
(** * Which payloads a card accepts *)
(* ================================================================== *)

Section Acceptance.

Variable js : Intrinsics.

(** [v?.toFixed(1)] throws exactly on a value that is there and is not a
    number. *)
Lemma call_toFixed_opt_throws (v : value) :
  call_toFixed_opt js v 1 = Throw TypeError <->
  nullish v = false /\ is_number v = false.
Proof.
  destruct v; cbn; split; try discriminate; try tauto;
    intros [? ?]; discriminate.
Qed.

(** A card that paints its bar with [getProgressColor(v || 0)] and
    prints [v?.toFixed(1)]: the text is where it can throw. *)
Lemma usage_text_throws {A} (v : value) (rest : value -> result A) :
  (forall t, exists a, rest t = Ok a) ->
  (do colour <- getProgressColor js (js_or v (VNum 0));
   do t <- call_toFixed_opt js v 1; rest t) = Throw TypeError <->
  nullish v = false /\ is_number v = false.
Proof.
  intros Hrest.
  assert (forall m : result string,
            (do colour <- m; (Throw TypeError : result A)) = Throw TypeError)
    as Hthrow by (intros [?|[]]; reflexivity).
  destruct v as [| |b|x|str|xs|o];
    cbn [call_toFixed_opt call_toFixed nullish is_number bind];
    try (rewrite Hthrow; split; [intros _; split; reflexivity|reflexivity]).
  - cbn. destruct (Hrest VUndefined) as [a ->].
    split; [discriminate|intros [? _]; discriminate].
  - cbn. destruct (Hrest VUndefined) as [a ->].
    split; [discriminate|intros [? _]; discriminate].
  - unfold js_or, getProgressColor.
    destruct (truthy (VNum x)); cbn [ToNumber bind];
      destruct (Hrest (VStr (toFixed js x 1))) as [a ->];
      (split; [discriminate|intros [_ ?]; discriminate]).
Qed.

(** A bar painted with [getProgressColor(v || 0)] throws exactly when
    [v] has no numeric value. *)
Lemma usage_color_throws (v : value) :
  getProgressColor js (js_or v (VNum 0)) = Throw TypeError <->
  ToNumber js v = Throw TypeError.
Proof.
  unfold getProgressColor, js_or.
  destruct (truthy v) eqn:T.
  - destruct (ToNumber js v) as [x|[]]; cbn [bind];
      split; try discriminate; reflexivity.
  - destruct v; cbn in T |- *; try discriminate;
      split; discriminate.
Qed.

(** The disk card throws exactly when its bar colour does. *)
Lemma render_disk_throws (sr c : gmap string value) (v : value) :
  sr !! "disk" = Some (VObj c) -> c !! "usage_percent" = Some v ->
  render_disk js (VObj sr) = Throw TypeError <->
  ToNumber js v = Throw TypeError.
Proof.
  intros Hc Hv. unfold render_disk, disk_color.
  rewrite !(read_object sr c "disk" _ Hc).
  rewrite Hv. cbn [default from_option id bind].
  rewrite <- (usage_color_throws v).
  destruct (getProgressColor js (js_or v (VNum 0))) as [?|[]];
    cbn [bind]; split; try discriminate; reflexivity.
Qed.

(** So does the storage summary, and a partition card. *)
Lemma render_summary_throws (sr c : gmap string value) (v : value) :
  sr !! "storage_summary" = Some (VObj c) -> c !! "usage_percent" = Some v ->
  ToNumber js v = Throw TypeError ->
  render_summary js (VObj sr) = Throw TypeError.
Proof.
  intros Hc Hv Hbad. unfold render_summary, summary_color.
  rewrite !(read_object sr c "storage_summary" _ Hc).
  rewrite Hv. cbn [default from_option id bind].
  rewrite (proj2 (usage_color_throws v) Hbad). reflexivity.
Qed.

Lemma render_partition_throws (x p : value) :
  get x "usage_percent" = Ok p -> ToNumber js p = Throw TypeError ->
  render_partition js x = Throw TypeError.
Proof.
  intros Hp Hbad. unfold render_partition, partition_color, getProgressColor.
  destruct (get x "mount_point") as [mp|[]]; cbn [bind]; [|reflexivity].
  destruct (split_pop mp) as [?|[]]; cbn [bind]; [|reflexivity].
  destruct (get x "used") as [?|[]]; cbn [bind]; [|reflexivity].
  destruct (get x "total") as [?|[]]; cbn [bind]; [|reflexivity].
  rewrite Hp. cbn [bind]. rewrite Hbad. reflexivity.
Qed.

(** A GPU card needs a [temperature] and an [id] that can be turned into
    strings. *)
Lemma render_gpu_needs_strings (o : gmap string value) :
  ToString js (field o "temperature") = Throw TypeError \/
  ToString js (field o "id") = Throw TypeError ->
  render_gpu js (VObj o) = Throw TypeError.
Proof.
  intros H. unfold render_gpu. cbn [get bind].
  fold (field o "id"). fold (field o "temperature").
  destruct (gpu_usage_percent js (VObj o)) as [pct|[]]; cbn [bind];
    [|reflexivity].
  destruct (gpu_color js (VObj o)) as [colour|[]]; cbn [bind];
    [|reflexivity].
  unfold temperature_color, parseInt. cbn [get bind].
  fold (field o "temperature").
  destruct (ToString js (field o "temperature")) as [str|[]] eqn:Et;
    cbn [bind]; [|reflexivity].
  destruct H as [H|H]; [discriminate|].
  unfold getProgressColor. cbn [ToNumber bind].
  unfold element_key. rewrite H.
  destruct (field o "id"); try reflexivity. discriminate.
Qed.

Lemma traverse_Ok (l : list value) : traverse Ok l = Ok l.
Proof.
  induction l as [|a l IH]; [reflexivity|].
  cbn [traverse bind]. rewrite IH. reflexivity.
Qed.

Lemma all_render {B} (f : value -> result B) (wf : value -> bool) l :
  (forall x, wf x = true -> exists y, f x = Ok y) ->
  forallb wf l = true -> exists ys, traverse f l = Ok ys.
Proof.
  intros Hf Hall. apply traverse_all. apply Forall_forall. intros x Hx.
  apply Hf. rewrite forallb_forall in Hall. apply Hall.
  apply list_elem_of_In. exact Hx.
Qed.

Lemma render_gpu_ok (g : value) :
  well_formed_gpu g = true -> exists card, render_gpu js g = Ok card.
Proof.
  destruct g as [| | | | | |o]; try discriminate. cbn [well_formed_gpu].
  intros [[[Hi Hu]%andb_true_iff Ht]%andb_true_iff Htemp]%andb_true_iff.
  apply render_gpu_primitive; assumption.
Qed.

Lemma render_session_ok (x : value) :
  well_formed_session x = true ->
  exists line, render_session js x = Ok line.
Proof.
  destruct x as [| | | | | |o]; try discriminate.
  cbn [well_formed_session]. unfold field. intros Hf.
  unfold render_session. cbn [get bind].
  destruct (differs_from (default VUndefined (o !! "from")) "N/A").
  - destruct (ToString_primitive js _ Hf) as [str ->]. cbn [bind]. eauto.
  - cbn [bind]. eauto.
Qed.

Lemma gpu_memory_cell_ok (o : gmap string value) :
  primitive (field o "gpu_memory_usage") = true ->
  exists cell, gpu_memory_cell js (VObj o) = Ok cell.
Proof.
  unfold field. intros H. unfold gpu_memory_cell, js_gt, js_div.
  cbn [get bind]. destruct (ToNumber_primitive js _ H) as [x ->].
  cbn [bind ToNumber]. destruct (Num.gt x 0); eauto.
Qed.

Lemma storage_cell_ok (o : gmap string value) :
  number_or_nullish (field o "storage_usage") = true ->
  exists cell, storage_cell js (VObj o) = Ok cell.
Proof.
  unfold field, number_or_nullish. intros H.
  unfold storage_cell, js_gt, js_mul. cbn [get bind].
  destruct (default VUndefined (o !! "storage_usage")); try discriminate;
    cbn [ToNumber bind].
  - eauto.
  - eauto.
  - destruct (Num.gt x 0); [|eauto].
    destruct (Num.gt x 1); cbn [call_toFixed bind ToString ToNumber]; eauto.
Qed.

Lemma render_user_ok (u : value) :
  well_formed_user u = true -> exists row, render_user js u = Ok row.
Proof.
  destruct u as [| | | | | |o]; try discriminate. cbn [well_formed_user].
  intros [[[[Hc Hm]%andb_true_iff Hg]%andb_true_iff Hs]%andb_true_iff Hss]
           %andb_true_iff.
  unfold render_user. cbn [get bind]. fold (field o "cpu_usage").
  fold (field o "memory_usage"). fold (field o "sessions").
  unfold user_cpu_color, user_memory_color, getProgressColor.
  cbn [get bind]. fold (field o "cpu_usage"). fold (field o "memory_usage").
  destruct (ToNumber_primitive js _ Hc) as [c ->],
    (ToNumber_primitive js _ Hm) as [m ->]. cbn [bind].
  destruct (gpu_memory_cell_ok o Hg) as [g ->],
    (storage_cell_ok o Hs) as [st ->]. cbn [bind].
  destruct (field o "sessions") as [| | | | |ss|]; try discriminate.
  cbn [array_map].
  destruct (all_render _ _ ss render_session_ok Hss) as [lines ->].
  cbn [bind]. eauto.
Qed.

Lemma render_cpu_ok (sr : gmap string value) :
  well_formed_metric sr "cpu" = true ->
  exists card, render_cpu js (VObj sr) = Ok card.
Proof.
  unfold well_formed_metric, field. intros H.
  destruct (sr !! "cpu") as [w|] eqn:E; cbn [default from_option id] in H.
  - destruct w as [| | | | | |c]; try discriminate.
    + rewrite render_cpu_missing; [eauto|]. unfold missing. rewrite E.
      reflexivity.
    + rewrite render_cpu_missing; [eauto|]. unfold missing. rewrite E.
      reflexivity.
    + unfold render_cpu, cpu_color, getProgressColor.
      rewrite !(read_object sr c "cpu" _ E).
      cbn [bind]. unfold number_or_nullish in H.
      destruct (default VUndefined (c !! "usage_percent")) as [| | |x| | |];
        try discriminate; try (cbn; eauto).
      unfold js_or. destruct (truthy (VNum x)); cbn; eauto.
  - rewrite render_cpu_missing; [eauto|]. unfold missing. rewrite E.
    reflexivity.
Qed.

Lemma render_memory_ok (sr : gmap string value) :
  well_formed_metric sr "memory" = true ->
  exists card, render_memory js (VObj sr) = Ok card.
Proof.
  unfold well_formed_metric, field. intros H.
  destruct (sr !! "memory") as [w|] eqn:E; cbn [default from_option id] in H.
  - destruct w as [| | | | | |c]; try discriminate.
    + rewrite render_memory_missing; [eauto|]. unfold missing. rewrite E.
      reflexivity.
    + rewrite render_memory_missing; [eauto|]. unfold missing. rewrite E.
      reflexivity.
    + unfold render_memory, memory_color, getProgressColor.
      rewrite !(read_object sr c "memory" _ E).
      cbn [bind]. unfold number_or_nullish in H.
      destruct (default VUndefined (c !! "usage_percent")) as [| | |x| | |];
        try discriminate; try (cbn; eauto).
      unfold js_or. destruct (truthy (VNum x)); cbn; eauto.
  - rewrite render_memory_missing; [eauto|]. unfold missing. rewrite E.
    reflexivity.
Qed.

Lemma render_partition_ok (d : value) :
  well_formed_partition d = true ->
  exists card, render_partition js d = Ok card.
Proof.
  destruct d as [| | | | | |o]; try discriminate.
  cbn [well_formed_partition]. intros [Hmp Hp]%andb_true_iff.
  unfold render_partition, partition_color. cbn [get bind].
  fold (field o "mount_point"). fold (field o "usage_percent").
  destruct (field o "mount_point"); try discriminate.
  destruct (getProgressColor_primitive js _ Hp) as [colour ->].
  cbn. eauto.
Qed.

End Acceptance.

(** X16.  The percentage texts of the CPU and memory cards call
    [toFixed] on [usage_percent]: with the metric present, the card throws
    a TypeError exactly when [usage_percent] is there, not null, and not a
    number (a numeric string, say).  The disk card prints its
    [usage_percent] as it comes: it throws exactly when the value has no
    numeric value for the colour of its bar, and so renders for every
    primitive, numeric strings included. *)
Theorem percent_text_needs_a_number
    (js : Intrinsics) (sr c : gmap string value) (v : value) :
  c !! "usage_percent" = Some v ->
  (sr !! "cpu" = Some (VObj c) ->
   (render_cpu js (VObj sr) = Throw TypeError <->
    nullish v = false /\ is_number v = false)) /\
  (sr !! "memory" = Some (VObj c) ->
   (render_memory js (VObj sr) = Throw TypeError <->
    nullish v = false /\ is_number v = false)) /\
  (sr !! "disk" = Some (VObj c) ->
   (render_disk js (VObj sr) = Throw TypeError <->
    ToNumber js v = Throw TypeError) /\
   (primitive v = true -> exists card, render_disk js (VObj sr) = Ok card)).
Proof.
  intros Hv. split; [|split].
  - intros Hc. unfold render_cpu, cpu_color.
    rewrite !(read_object sr c "cpu" _ Hc).
    rewrite Hv. cbn [default from_option id bind].
    apply (usage_text_throws js v). eauto.
  - intros Hc. unfold render_memory, memory_color.
    rewrite !(read_object sr c "memory" _ Hc).
    rewrite Hv. cbn [default from_option id bind].
    apply (usage_text_throws js v). eauto.
  - intros Hc.
    pose proof (render_disk_throws js sr c v Hc Hv) as Hiff.
    split; [exact Hiff|]. intros Hp.
    destruct (render_disk js (VObj sr)) as [card|[]]; [eauto|].
    destruct (ToNumber_primitive js v Hp) as [x Hx].
    rewrite (proj1 Hiff eq_refl) in Hx. discriminate.
Qed.

Lemma percent_text_needs_a_number_witness :
  render_cpu sample_intrinsics
    (obj [("cpu", obj [("usage_percent", VStr "12.5")])])
  = Throw TypeError.
Proof.
  assert ((list_to_map [("usage_percent", VStr "12.5")] : gmap string value)
          !! "usage_percent" = Some (VStr "12.5")) as Hv by reflexivity.
  assert ((list_to_map [("cpu", obj [("usage_percent", VStr "12.5")])]
             : gmap string value) !! "cpu"
          = Some (VObj (list_to_map [("usage_percent", VStr "12.5")])))
    as Hc by reflexivity.
  exact (proj2 (proj1 (percent_text_needs_a_number sample_intrinsics
                          _ _ _ Hv) Hc) (conj eq_refl eq_refl)).
Defined.

(** X17.  A GPU record whose [id], [memory_used], [memory_total] and
    [temperature] are primitives (numbers, strings, booleans, null or
    absent) always gets its card and its bar colour, whatever else it
    holds or lacks; the card shows 'No user' when [user] is absent, null
    or empty.  A [temperature] or an [id] that cannot be turned into a
    string makes the card throw. *)
Theorem gpu_card_accepts_primitive_fields
    (js : Intrinsics) (o : gmap string value) :
  (primitive (field o "id") = true ->
   primitive (field o "memory_used") = true ->
   primitive (field o "memory_total") = true ->
   primitive (field o "temperature") = true ->
   exists card,
     render_gpu js (VObj o) = Ok card /\
     gpu_color js (VObj o) = Ok (progress_color (gpu_progress card)) /\
     (truthy (field o "user") = false -> gpu_user card = VStr "No user")) /\
  (ToString js (field o "temperature") = Throw TypeError \/
   ToString js (field o "id") = Throw TypeError ->
   render_gpu js (VObj o) = Throw TypeError).
Proof.
  split.
  - intros Hi Hu Ht Htemp.
    destruct (render_gpu_primitive js o Hi Hu Ht Htemp) as [card Hc].
    exists card. split; [exact Hc|].
    destruct (render_gpu_inv js _ _ Hc)
      as (_ & Hcol & _ & _ & user & Huser & Hshown).
    split; [exact Hcol|]. intros Hfalsy.
    cbn [get] in Huser. fold (field o "user") in Huser.
    injection Huser as <-. rewrite Hshown. unfold js_or.
    rewrite Hfalsy. reflexivity.
  - apply render_gpu_needs_strings.
Qed.

Lemma gpu_card_accepts_primitive_fields_witness :
  primitive (field (list_to_map [("id", VNum 3)]) "id") = true /\
  exists card,
    render_gpu sample_intrinsics (obj [("id", VNum 3)]) = Ok card /\
    gpu_color sample_intrinsics (obj [("id", VNum 3)])
      = Ok (progress_color (gpu_progress card)) /\
    (truthy (field (list_to_map [("id", VNum 3)]) "user") = false ->
     gpu_user card = VStr "No user").
Proof.
  split; [reflexivity|].
  exact (proj1 (gpu_card_accepts_primitive_fields sample_intrinsics
                  (list_to_map [("id", VNum 3)]))
           eq_refl eq_refl eq_refl eq_refl).
Defined.

(** X18.  The earlier revision's users card reads [active_users.length]
    unguarded: a payload whose [active_users] is absent or null makes the
    whole of its [App] throw.  An empty array, or one whose first entry is
    the empty string, gives the "No active users" text; any other
    non-empty array is listed entry by entry. *)
Theorem legacy_active_users_card
    (js : Intrinsics) (x : value) (rest : list value) :
  (forall v, nullish v = true ->
     LegacyApp.render_active_users js v = Throw TypeError) /\
  LegacyApp.render_active_users js (VArr [])
    = Ok LegacyApp.NoActiveUsers /\
  LegacyApp.render_active_users js (VArr (VStr "" :: rest))
    = Ok LegacyApp.NoActiveUsers /\
  (differs_from x "" = true ->
   (Z.of_nat (length (x :: rest)) < 2 ^ 63)%Z ->
   LegacyApp.render_active_users js (VArr (x :: rest))
   = Ok (LegacyApp.ActiveUsersList (x :: rest))) /\
  (forall s v, loading s = false -> truthy (error s) = false ->
     get (gpuData s) "active_users" = Ok v -> nullish v = true ->
     LegacyApp.App js s = Throw TypeError).
Proof.
  assert (forall v, nullish v = true ->
            LegacyApp.render_active_users js v = Throw TypeError) as Hnull.
  { intros v Hv. destruct v; try discriminate; reflexivity. }
  split; [exact Hnull|]. split; [reflexivity|]. split; [|split].
  - unfold LegacyApp.render_active_users.
    cbn [get String.eqb Ascii.eqb Bool.eqb bind js_gt ToNumber].
    destruct (Num.gt _ 0); reflexivity.
  - intros Hx Hb. unfold LegacyApp.render_active_users.
    pose proof (length_test js (x :: rest) ltac:(discriminate) Hb) as H.
    destruct (get (VArr (x :: rest)) "length") as [len|];
      cbn [bind] in H |- *; [|discriminate].
    rewrite H. cbn [LegacyApp.first_element head default from_option id bind].
    rewrite Hx. cbn [array_map]. rewrite traverse_Ok. reflexivity.
  - intros s v Hl He Hv Hn. unfold LegacyApp.App. rewrite Hl, He, Hv.
    destruct (get (gpuData s) "gpus") as [gv|[]]; cbn [bind]; [|reflexivity].
    destruct (get (gpuData s) "system_resources") as [srv|[]];
      cbn [bind]; [|reflexivity].
    destruct (render_system js srv) as [?|[]]; cbn [bind]; [|reflexivity].
    destruct (array_map gv (render_gpu js)) as [?|[]];
      cbn [bind]; [|reflexivity].
    rewrite (Hnull v Hn). reflexivity.
Qed.

Lemma legacy_active_users_card_witness :
  differs_from (VStr "alice") "" = true /\
  LegacyApp.render_active_users sample_intrinsics
    (VArr [VStr "alice"; VStr "bob"])
  = Ok (LegacyApp.ActiveUsersList [VStr "alice"; VStr "bob"]).
Proof.
  split; [reflexivity|].
  exact (proj1 (proj2 (proj2 (proj2
           (legacy_active_users_card sample_intrinsics (VStr "alice")
              [VStr "bob"]))))
           eq_refl eq_refl).
Defined.

Section Pages.
Variable js : Intrinsics.

Lemma render_users_ok (v : value) :
  match v with
  | VUndefined | VNull => True
  | VArr us => forallb well_formed_user us = true
  | _ => False
  end ->
  exists card, render_users js v = Ok card.
Proof.
  destruct v as [| | | | |us|]; try contradiction; intros H.
  - cbn. eauto.
  - cbn. eauto.
  - unfold render_users.
    cbn [truthy get String.eqb Ascii.eqb Bool.eqb bind js_gt ToNumber].
    destruct (Num.gt _ 0); [|eauto]. cbn [array_map].
    destruct (all_render _ _ us (render_user_ok js) H) as [rows ->].
    cbn [bind]. eauto.
Qed.

Lemma render_storage_ok (sr : gmap string value) :
  primitive_usage sr "storage_summary" = true ->
  match field sr "storage_disks" with
  | VUndefined | VNull => True
  | VArr ds => forallb well_formed_partition ds = true
  | _ => False
  end ->
  exists section, render_storage js (VObj sr) = Ok section.
Proof.
  intros Hsum. unfold field, render_storage. cbn [get bind].
  destruct (default VUndefined (sr !! "storage_disks")) as [| | | | |ds|];
    try contradiction; intros H.
  - cbn. eauto.
  - cbn. eauto.
  - cbn [truthy get String.eqb Ascii.eqb Bool.eqb bind js_gt ToNumber].
    destruct (Num.gt _ 0); [|eauto].
    destruct (render_summary_ok js sr Hsum) as [summary ->].
    cbn [bind array_map].
    destruct (all_render _ _ ds (render_partition_ok js) H) as [parts ->].
    cbn [bind]. eauto.
Qed.

Lemma render_system_ok (sr : gmap string value) :
  well_formed_metric sr "cpu" = true ->
  well_formed_metric sr "memory" = true ->
  primitive_usage sr "disk" = true ->
  exists system, render_system js (VObj sr) = Ok system.
Proof.
  intros Hc Hm Hd. unfold render_system.
  destruct (render_cpu_ok js sr Hc) as [c ->],
    (render_memory_ok js sr Hm) as [m ->],
    (render_disk_ok js sr Hd) as [d ->].
  cbn [bind]. eauto.
Qed.

End Pages.

(** X19.  A user record whose [cpu_usage], [memory_usage] and
    [gpu_memory_usage] are primitives, whose [storage_usage] is a number
    or absent, and whose [sessions] is an array of objects with a
    primitive [from], always yields its table row: no step of the row
    throws, whatever the values are (NaN, negative, strings, null). *)
Theorem well_formed_user_has_a_row (js : Intrinsics) (u : value) :
  well_formed_user u = true ->
  exists row, render_user js u = Ok row /\
    get u "username" = Ok (row_username row) /\
    forall ss, get u "sessions" = Ok (VArr ss) ->
               length (row_sessions row) = length ss.
Proof.
  intros H. destruct (render_user_ok js u H) as [row Hrow].
  exists row. split; [exact Hrow|].
  destruct (render_user_inv js u row Hrow)
    as (c & m & sessions & Hn & _ & _ & _ & _ & _ & _ & _ & _ & Hs & Hl).
  split; [exact Hn|]. intros ss Hss. rewrite Hss in Hs.
  injection Hs as <-. cbn [array_map] in Hl.
  eapply Forall2_same_length, traverse_ok, Hl.
Qed.

Lemma well_formed_user_has_a_row_witness :
  well_formed_user alice = true /\
  exists row, render_user sample_intrinsics alice = Ok row.
Proof.
  split; [reflexivity|].
  destruct (well_formed_user_has_a_row sample_intrinsics alice eq_refl)
    as (row & H & _).
  exists row. exact H.
Defined.

(** X20.  For every payload of the expected shape (an object whose
    [gpus] is an array of GPU objects with primitive [id], memory fields
    and [temperature], whose [user_resources] is absent, null or an array
    of well-formed user records, and whose [system_resources] is an
    object with well-formed cpu and memory entries, primitive
    [usage_percent] in its disk and storage_summary entries, and an
    absent, null or array [storage_disks] of partitions with a string
    [mount_point] and a primitive [usage_percent]) the page after the
    fulfilled request is the dashboard, stamped with the arrival time and
    carrying one GPU card per entry; no expression of [App] throws,
    whatever the numbers are and whatever the state was before. *)
Theorem well_formed_payload_renders_the_dashboard
    (js : Intrinsics) (env : option string) (data : value) (now : Z) (s : State) :
  well_formed_payload data = true ->
  exists system storage cards users gs,
    App js (fetchData env (Fulfilled data) now s)
      = Ok (Dashboard now system storage cards users) /\
    get data "gpus" = Ok (VArr gs) /\
    length cards = length gs.
Proof.
  destruct data as [| | | | | |d]; try discriminate.
  cbn [well_formed_payload]. intros [[Hg Hu]%andb_true_iff Hs]%andb_true_iff.
  destruct (field d "gpus") as [| | | | |gs|] eqn:Eg; try discriminate.
  destruct (field d "system_resources") as [| | | | | |sr] eqn:Es;
    try discriminate.
  apply andb_true_iff in Hs
    as [[[[Hc Hm]%andb_true_iff Hdisk]%andb_true_iff Hsum]%andb_true_iff Hd].
  destruct (render_system_ok js sr Hc Hm Hdisk) as [system Hsys].
  destruct (render_storage_ok js sr Hsum) as [storage Hsto].
  { destruct (field sr "storage_disks"); try discriminate; auto. }
  destruct (all_render _ _ gs (render_gpu_ok js) Hg) as [cards Hcards].
  destruct (render_users_ok js (field d "user_resources")) as [users Hus].
  { destruct (field d "user_resources"); try discriminate; auto. }
  exists system, storage, cards, users, gs.
  split; [|split].
  - rewrite fetchData_fulfilled.
    apply (App_dashboard_intro js
             {| gpuData := VObj d; loading := false; error := VNull;
                lastUpdated := now |}
             (VArr gs) (field d "user_resources") (VObj sr));
      try reflexivity; try assumption.
    + cbn [gpuData get]. fold (field d "gpus"). rewrite Eg. reflexivity.
    + cbn [gpuData get]. fold (field d "system_resources"). rewrite Es.
      reflexivity.
  - cbn [get]. fold (field d "gpus"). rewrite Eg. reflexivity.
  - eapply Forall2_same_length, traverse_ok, Hcards.
Qed.

Lemma well_formed_payload_renders_the_dashboard_witness :
  well_formed_payload sample_payload = true /\
  exists system storage cards users,
    App sample_intrinsics
      (fetchData None (Fulfilled sample_payload) 1000 (initial_state 0))
    = Ok (Dashboard 1000 system storage cards users).
Proof.
  split; [reflexivity|].
  destruct (well_formed_payload_renders_the_dashboard sample_intrinsics None
              sample_payload 1000 (initial_state 0) eq_refl)
    as (system & storage & cards & users & gs & H & _).
  exists system, storage, cards, users. exact H.
Defined.

(** X21.  A value that is only used for a colour or a key can break the
    page.  Past the spinner and the error screen, [App] throws a
    TypeError when some GPU has a [temperature] or an [id] that cannot be
    turned into a string (an object that owns a [toString] member, as a
    JSON payload may), when the disk entry's [usage_percent] has no
    numeric value, or when, the storage section being shown, the
    [usage_percent] of the storage summary or of one partition has
    none. *)
Theorem colour_inputs_can_break_the_page (js : Intrinsics) (s : State) :
  loading s = false -> truthy (error s) = false ->
  (exists gs o,
     get (gpuData s) "gpus" = Ok (VArr gs) /\ In (VObj o) gs /\
     (ToString js (field o "temperature") = Throw TypeError \/
      ToString js (field o "id") = Throw TypeError)) \/
  (exists sr c v,
     get (gpuData s) "system_resources" = Ok (VObj sr) /\
     sr !! "disk" = Some (VObj c) /\ c !! "usage_percent" = Some v /\
     ToNumber js v = Throw TypeError) \/
  (exists sr ds,
     get (gpuData s) "system_resources" = Ok (VObj sr) /\
     sr !! "storage_disks" = Some (VArr ds) /\ ds <> [] /\
     (Z.of_nat (length ds) < 2 ^ 63)%Z /\
     ((exists c v, sr !! "storage_summary" = Some (VObj c) /\
                   c !! "usage_percent" = Some v /\
                   ToNumber js v = Throw TypeError) \/
      (exists x p, In x ds /\ get x "usage_percent" = Ok p /\
                   ToNumber js p = Throw TypeError))) ->
  App js s = Throw TypeError.
Proof.
  intros Hl He H. unfold App. rewrite Hl, He.
  destruct H as [(gs & o & Hg & Hin & Hbad)
                |[(sr & c & v & Hs & Hc & Hv & Hbad)
                 |(sr & ds & Hs & Hsd & Hne & Hb & Hbad)]].
  - rewrite Hg. cbn [bind].
    destruct (get (gpuData s) "user_resources") as [uv|[]]; cbn [bind];
      [|reflexivity].
    destruct (get (gpuData s) "system_resources") as [srv|[]];
      cbn [bind]; [|reflexivity].
    destruct (render_system js srv) as [?|[]]; cbn [bind]; [|reflexivity].
    destruct (render_storage js srv) as [?|[]]; cbn [bind]; [|reflexivity].
    cbn [array_map].
    rewrite (traverse_throw _ _ (VObj o) TypeError Hin
               (render_gpu_needs_strings js o Hbad)).
    reflexivity.
  - rewrite Hs.
    destruct (get (gpuData s) "gpus") as [gv|[]]; cbn [bind]; [|reflexivity].
    destruct (get (gpuData s) "user_resources") as [uv|[]]; cbn [bind];
      [|reflexivity].
    unfold render_system.
    destruct (render_cpu js (VObj sr)) as [?|[]]; cbn [bind]; [|reflexivity].
    destruct (render_memory js (VObj sr)) as [?|[]]; cbn [bind];
      [|reflexivity].
    rewrite (proj2 (render_disk_throws js sr c v Hc Hv) Hbad).
    reflexivity.
  - rewrite Hs.
    destruct (get (gpuData s) "gpus") as [gv|[]]; cbn [bind]; [|reflexivity].
    destruct (get (gpuData s) "user_resources") as [uv|[]]; cbn [bind];
      [|reflexivity].
    destruct (render_system js (VObj sr)) as [?|[]]; cbn [bind];
      [|reflexivity].
    rewrite (render_storage_nonempty js sr ds Hsd Hne Hb).
    destruct Hbad as [(c & v & Hc & Hv & Hbad)|(x & p & Hin & Hp & Hbad)].
    + rewrite (render_summary_throws js sr c v Hc Hv Hbad). reflexivity.
    + destruct (render_summary js (VObj sr)) as [?|[]]; cbn [bind];
        [|reflexivity].
      rewrite (traverse_throw _ _ x TypeError Hin
                 (render_partition_throws js x p Hp Hbad)).
      reflexivity.
Qed.

Lemma colour_inputs_can_break_the_page_witness :
  ToString sample_intrinsics
    (field (list_to_map [("temperature", obj [("toString", VNum 1)])])
       "temperature")
  = Throw TypeError /\
  App sample_intrinsics
    (fetchData None
       (Fulfilled
          (obj [("gpus",
                 VArr [obj [("temperature", obj [("toString", VNum 1)])]]);
                ("user_resources", VArr []);
                ("system_resources", VObj ∅)]))
       1000 (initial_state 0))
  = Throw TypeError.
Proof.
  split; [reflexivity|].
  refine (colour_inputs_can_break_the_page sample_intrinsics
            (fetchData None
               (Fulfilled
                  (obj [("gpus",
                         VArr [obj [("temperature",
                                     obj [("toString", VNum 1)])]]);
                        ("user_resources", VArr []);
                        ("system_resources", VObj ∅)]))
               1000 (initial_state 0))
            eq_refl eq_refl (or_introl _)).
  exists [obj [("temperature", obj [("toString", VNum 1)])]].
  exists (list_to_map [("temperature", obj [("toString", VNum 1)])]).
  split; [reflexivity|]. split; [left; reflexivity|].
  left. reflexivity.
Defined.
